(** * motion-crop: a shallow embedding of src/crop.c

    The embedding follows [crop.c] statement by statement.

    - C [int] is a 32-bit two's-complement integer, kept as a [Z] with the
      wrap-around written out ([wrap]); [/] is C's truncating division.
    - Memory is flat: an address is a [Z], [NULL] is address 0, and the heap
      is a finite map from allocated addresses to bytes.  Reading or writing
      an address that is not allocated is a [Fault].
    - The two loops of [crop] carry fuel; running out of it is [Timeout].
    - [struct context] (declared in motion.h) is reduced to the fields that
      crop.c touches: [conf], [crop_data], [rotate_data] and [imgs].
    - [mymalloc] and [MOTION_LOG] belong to the host program; the allocator
      is a parameter of [crop_init] and the logger appends to a list. *)

From Stdlib Require Import ZArith Lia List Strings.Byte.
From stdpp Require Import base option gmap list.

Local Open Scope Z_scope.

(** ** Machine integers *)

Definition wrap (z : Z) : Z := (z + 2 ^ 31) mod 2 ^ 32 - 2 ^ 31.

Definition int_add (a b : Z) : Z := wrap (a + b).
Definition int_sub (a b : Z) : Z := wrap (a - b).
Definition int_mul (a b : Z) : Z := wrap (a * b).
Definition int_div (a b : Z) : Z := wrap (Z.quot a b).

Definition in_int (z : Z) : Prop := - 2 ^ 31 <= z < 2 ^ 31.

(** Conversion of an [int] argument to [size_t] (64 bits). *)
Definition to_size_t (z : Z) : Z := z mod 2 ^ 64.

(** ** Flat memory *)

Definition NULL : Z := 0.

Definition load (m : gmap Z byte) (a : Z) : option byte := m !! a.

Definition store (m : gmap Z byte) (a : Z) (v : byte) : option (gmap Z byte) :=
  match m !! a with
  | Some _ => Some (<[a := v]> m)
  | None => None
  end.

(** [n] consecutive bytes starting at [a]; [None] if one is not allocated. *)
Fixpoint read_bytes (m : gmap Z byte) (a : Z) (n : nat) : option (list byte) :=
  match n with
  | O => Some []
  | S k =>
      match load m a, read_bytes m (a + 1) k with
      | Some v, Some vs => Some (v :: vs)
      | _, _ => None
      end
  end.

(** Lay a byte string out at address [a] (used to build concrete heaps). *)
Fixpoint place (a : Z) (bs : list byte) (m : gmap Z byte) : gmap Z byte :=
  match bs with
  | [] => m
  | b :: rest => <[a := b]> (place (a + 1) rest m)
  end.

(** ** Outcomes of running C code *)

Inductive outcome (A : Type) : Type :=
  | Done (a : A)     (* the call returned *)
  | Fault            (* access outside allocated memory *)
  | Timeout.         (* the fuel ran out before the call returned *)

Arguments Done {A} a.
Arguments Fault {A}.
Arguments Timeout {A}.

Definition bind {A B : Type} (o : outcome A) (k : A -> outcome B) : outcome B :=
  match o with
  | Done a => k a
  | Fault => Fault
  | Timeout => Timeout
  end.

Notation "x <~ c ; k" := (bind c (fun x => k))
  (at level 200, c at level 100, right associativity, only parsing).

Definition lift {A : Type} (o : option A) : outcome A :=
  match o with
  | Some a => Done a
  | None => Fault
  end.

(** ** crop (crop.c, lines 39-57) *)

(** The inner [for]: [base] has already been advanced by [left]; the guard
    is the source's [base < base + left - right], re-evaluated at every
    iteration. *)
Fixpoint crop_row (fuel : nat) (m : gmap Z byte) (base dst left right : Z)
  : outcome (gmap Z byte * Z * Z) :=
  match fuel with
  | O => Timeout
  | S f =>
      if base <? base + left - right then
        v <~ lift (load m base);
        m' <~ lift (store m dst v);
        crop_row f m' (base + 1) (dst + 1) left right
      else Done (m, base, dst)
  end.

(** The outer [for]: guard [base < src_endp], step [base += right]. *)
Fixpoint crop_rows (fuel : nat) (m : gmap Z byte) (base dst src_endp left right : Z)
  : outcome (gmap Z byte) :=
  match fuel with
  | O => Timeout
  | S f =>
      if base <? src_endp then
        r <~ crop_row f m (base + left) dst left right;
        let '(m', base', dst') := r in
        crop_rows f m' (base' + right) dst' src_endp left right
      else Done m
  end.

(** [size_dst] and [bottom] are parameters of the C function that its body
    never reads. *)
Definition crop (fuel : nat) (m : gmap Z byte) (src dst : Z)
    (size_src size_dst width_src left right top bottom : Z) : outcome (gmap Z byte) :=
  let src_endp := src + size_src in
  crop_rows fuel m (src + int_mul width_src top) dst src_endp left right.

(** [memcpy(dst, src, n)], byte by byte. *)
Fixpoint memcpy_bytes (n : nat) (m : gmap Z byte) (dst src : Z) : option (gmap Z byte) :=
  match n with
  | O => Some m
  | S k =>
      match load m src with
      | Some v =>
          match store m dst v with
          | Some m' => memcpy_bytes k m' (dst + 1) (src + 1)
          | None => None
          end
      | None => None
      end
  end.

Definition memcpy (m : gmap Z byte) (dst src : Z) (n : Z) : outcome (gmap Z byte) :=
  lift (memcpy_bytes (Z.to_nat (to_size_t n)) m dst src).

(** ** The part of [struct context] that crop.c uses *)

(** [cnt->conf]: the user's configuration. *)
Record config := {
  crop_left : Z;
  crop_right : Z;
  crop_top : Z;
  crop_bottom : Z
}.

(** [cnt->crop_data]. *)
Record crop_info := {
  px_left : Z;
  px_right : Z;
  px_top : Z;
  px_bottom : Z;
  capture_width_norm : Z;
  capture_height_norm : Z;
  capture_width_high : Z;
  capture_height_high : Z;
  buffer_norm : Z;
  buffer_high : Z
}.

(** [cnt->rotate_data], owned by the rotation module; crop.c reads
    [degrees] and the capture dimensions and writes [buffer_high]. *)
Record rotate_info := {
  degrees : Z;
  rot_capture_width_norm : Z;
  rot_capture_height_norm : Z;
  rot_capture_width_high : Z;
  rot_capture_height_high : Z;
  rot_buffer_high : Z
}.

(** [cnt->imgs]: the dimensions that the rest of the pipeline reads. *)
Record images := {
  width : Z;
  height : Z;
  width_high : Z;
  height_high : Z
}.

Record context := {
  conf : config;
  crop_data : crop_info;
  rotate_data : rotate_info;
  imgs : images
}.

(** [struct image_data]: the two frame buffers of one captured image. *)
Record image_data := {
  image_norm : Z;
  image_high : Z
}.

(** What [MOTION_LOG(WRN, ...)] is called with. *)
Inductive edge := EdgeLeft | EdgeRight | EdgeTop | EdgeBottom.

Inductive warning :=
  | NotPositive (e : edge) (value : Z)
  | WiderThanImage (l r w : Z)
  | TallerThanImage (t b h : Z).

(** The context together with what lives outside it: the heap, the
    messages logged so far, and the (address, byte count) of every block
    obtained from [mymalloc] so far. *)
Record world := {
  cnt : context;
  heap : gmap Z byte;
  logged : list warning;
  mallocs : list (Z * Z)
}.

(** *** Field assignment *)

Definition set_crop_left (v : Z) (c : config) : config :=
  {| crop_left := v; crop_right := crop_right c; crop_top := crop_top c;
     crop_bottom := crop_bottom c |}.
Definition set_crop_right (v : Z) (c : config) : config :=
  {| crop_left := crop_left c; crop_right := v; crop_top := crop_top c;
     crop_bottom := crop_bottom c |}.
Definition set_crop_top (v : Z) (c : config) : config :=
  {| crop_left := crop_left c; crop_right := crop_right c; crop_top := v;
     crop_bottom := crop_bottom c |}.
Definition set_crop_bottom (v : Z) (c : config) : config :=
  {| crop_left := crop_left c; crop_right := crop_right c; crop_top := crop_top c;
     crop_bottom := v |}.

Definition set_px (l r t b : Z) (d : crop_info) : crop_info :=
  {| px_left := l; px_right := r; px_top := t; px_bottom := b;
     capture_width_norm := capture_width_norm d;
     capture_height_norm := capture_height_norm d;
     capture_width_high := capture_width_high d;
     capture_height_high := capture_height_high d;
     buffer_norm := buffer_norm d; buffer_high := buffer_high d |}.
Definition set_px_left (v : Z) (d : crop_info) : crop_info :=
  set_px v (px_right d) (px_top d) (px_bottom d) d.
Definition set_px_right (v : Z) (d : crop_info) : crop_info :=
  set_px (px_left d) v (px_top d) (px_bottom d) d.
Definition set_px_top (v : Z) (d : crop_info) : crop_info :=
  set_px (px_left d) (px_right d) v (px_bottom d) d.
Definition set_px_bottom (v : Z) (d : crop_info) : crop_info :=
  set_px (px_left d) (px_right d) (px_top d) v d.

Definition set_capture (wn hn wh hh : Z) (d : crop_info) : crop_info :=
  {| px_left := px_left d; px_right := px_right d; px_top := px_top d;
     px_bottom := px_bottom d;
     capture_width_norm := wn; capture_height_norm := hn;
     capture_width_high := wh; capture_height_high := hh;
     buffer_norm := buffer_norm d; buffer_high := buffer_high d |}.

Definition set_buffers (bn bh : Z) (d : crop_info) : crop_info :=
  {| px_left := px_left d; px_right := px_right d; px_top := px_top d;
     px_bottom := px_bottom d;
     capture_width_norm := capture_width_norm d;
     capture_height_norm := capture_height_norm d;
     capture_width_high := capture_width_high d;
     capture_height_high := capture_height_high d;
     buffer_norm := bn; buffer_high := bh |}.
Definition set_buffer_norm (v : Z) (d : crop_info) : crop_info :=
  set_buffers v (buffer_high d) d.
Definition set_buffer_high (v : Z) (d : crop_info) : crop_info :=
  set_buffers (buffer_norm d) v d.

Definition set_rot_buffer_high (v : Z) (r : rotate_info) : rotate_info :=
  {| degrees := degrees r;
     rot_capture_width_norm := rot_capture_width_norm r;
     rot_capture_height_norm := rot_capture_height_norm r;
     rot_capture_width_high := rot_capture_width_high r;
     rot_capture_height_high := rot_capture_height_high r;
     rot_buffer_high := v |}.

Definition set_width (v : Z) (i : images) : images :=
  {| width := v; height := height i; width_high := width_high i;
     height_high := height_high i |}.
Definition set_height (v : Z) (i : images) : images :=
  {| width := width i; height := v; width_high := width_high i;
     height_high := height_high i |}.
Definition set_width_high (v : Z) (i : images) : images :=
  {| width := width i; height := height i; width_high := v;
     height_high := height_high i |}.
Definition set_height_high (v : Z) (i : images) : images :=
  {| width := width i; height := height i; width_high := width_high i;
     height_high := v |}.

Definition with_cnt (c : context) (w : world) : world :=
  {| cnt := c; heap := heap w; logged := logged w; mallocs := mallocs w |}.
Definition with_heap (m : gmap Z byte) (w : world) : world :=
  {| cnt := cnt w; heap := m; logged := logged w; mallocs := mallocs w |}.

Definition upd_conf (f : config -> config) (w : world) : world :=
  with_cnt {| conf := f (conf (cnt w)); crop_data := crop_data (cnt w);
              rotate_data := rotate_data (cnt w); imgs := imgs (cnt w) |} w.
Definition upd_crop (f : crop_info -> crop_info) (w : world) : world :=
  with_cnt {| conf := conf (cnt w); crop_data := f (crop_data (cnt w));
              rotate_data := rotate_data (cnt w); imgs := imgs (cnt w) |} w.
Definition upd_rotate (f : rotate_info -> rotate_info) (w : world) : world :=
  with_cnt {| conf := conf (cnt w); crop_data := crop_data (cnt w);
              rotate_data := f (rotate_data (cnt w)); imgs := imgs (cnt w) |} w.
Definition upd_imgs (f : images -> images) (w : world) : world :=
  with_cnt {| conf := conf (cnt w); crop_data := crop_data (cnt w);
              rotate_data := rotate_data (cnt w); imgs := f (imgs (cnt w)) |} w.

Definition motion_log (msg : warning) (w : world) : world :=
  {| cnt := cnt w; heap := heap w; logged := logged w ++ [msg];
     mallocs := mallocs w |}.

(** ** crop_init (crop.c, lines 69-202) *)

(** Lines 73-74. *)
Definition clear_buffers (w : world) : world :=
  upd_crop (set_buffer_high NULL) (upd_crop (set_buffer_norm NULL) w).

(** Lines 80-88. *)
Definition check_left (w : world) : world :=
  let v := crop_left (conf (cnt w)) in
  if v <? 0 then
    upd_crop (set_px_left 0)
      (upd_conf (set_crop_left 0) (motion_log (NotPositive EdgeLeft v) w))
  else upd_crop (set_px_left v) w.

(** Lines 90-98.  The negative branch assigns [px_left], as the source
    does; [px_right] keeps the value it had on entry. *)
Definition check_right (w : world) : world :=
  let v := crop_right (conf (cnt w)) in
  if v <? 0 then
    upd_crop (set_px_left 0)
      (upd_conf (set_crop_right 0) (motion_log (NotPositive EdgeRight v) w))
  else upd_crop (set_px_right v) w.

(** Lines 101-109. *)
Definition check_top (w : world) : world :=
  let v := crop_top (conf (cnt w)) in
  if v <? 0 then
    upd_crop (set_px_top 0)
      (upd_conf (set_crop_top 0) (motion_log (NotPositive EdgeTop v) w))
  else upd_crop (set_px_top v) w.

(** Lines 112-120. *)
Definition check_bottom (w : world) : world :=
  let v := crop_bottom (conf (cnt w)) in
  if v <? 0 then
    upd_crop (set_px_bottom 0)
      (upd_conf (set_crop_bottom 0) (motion_log (NotPositive EdgeBottom v) w))
  else upd_crop (set_px_bottom v) w.

(** Lines 122-126. *)
Definition check_width (w : world) : world :=
  let c := conf (cnt w) in
  if int_add (crop_left c) (crop_right c) >? width (imgs (cnt w)) then
    motion_log (WiderThanImage (crop_left c) (crop_right c) (width (imgs (cnt w)))) w
  else w.

(** Lines 128-132. *)
Definition check_height (w : world) : world :=
  let c := conf (cnt w) in
  if int_add (crop_top c) (crop_bottom c) >? height (imgs (cnt w)) then
    motion_log (TallerThanImage (crop_top c) (crop_bottom c) (height (imgs (cnt w)))) w
  else w.

(** Lines 73-132: everything before the capture dimensions are read. *)
Definition validate (w : world) : world :=
  check_height (check_width (check_bottom (check_top (check_right
    (check_left (clear_buffers w)))))).

(** Lines 146-150. *)
Definition transfer_capture (w : world) : world :=
  let i := imgs (cnt w) in
  upd_crop (set_capture (width i) (height i) (width_high i) (height_high i)) w.

(** [w * h * 3 / 2] in [int] arithmetic (lines 152-153 and 196-197). *)
Definition frame_size (w h : Z) : Z := int_div (int_mul (int_mul w h) 3) 2.

(** Lines 155-163; [size_high] is the value computed at line 153. *)
Definition swap_if_rotated (size_high : Z) (w : world) : world :=
  let r := rotate_data (cnt w) in
  if (degrees r =? 90) || (degrees r =? 270) then
    let w1 := upd_imgs (set_width (rot_capture_height_norm r)) w in
    let w2 := upd_imgs (set_height (rot_capture_width_norm r)) w1 in
    if size_high >? 0 then
      let w3 := upd_imgs (set_width_high (rot_capture_height_high r)) w2 in
      upd_imgs (set_height_high (rot_capture_width_high r)) w3
    else w2
  else w.

(** The four nested [if]s of lines 169-172 (and 257-260). *)
Definition no_margins (d : crop_info) : bool :=
  (px_left d =? 0) && (px_right d =? 0) && (px_top d =? 0) && (px_bottom d =? 0).

(** Lines 180-194. *)
Definition shrink (w : world) : world :=
  let d := crop_data (cnt w) in
  let w1 := upd_imgs (fun i =>
    set_width (int_sub (int_sub (width i) (px_left d)) (px_right d)) i) w in
  let w2 := upd_imgs (fun i =>
    set_width_high (int_sub (int_sub (width_high i) (px_left d)) (px_right d)) i) w1 in
  let w3 := upd_imgs (fun i =>
    set_height (int_sub (int_sub (height i) (px_top d)) (px_bottom d)) i) w2 in
  upd_imgs (fun i =>
    set_height_high (int_sub (int_sub (height_high i) (px_top d)) (px_bottom d)) i) w3.

Section Allocator.

(** [mymalloc] is the host program's allocator.  Given the heap and a
    byte count (a [size_t]) it returns the address of a new block and the
    extended heap, or [None] when it ends the process because no memory
    is left. *)
Variable mymalloc : gmap Z byte -> Z -> option (Z * gmap Z byte).

Definition call_mymalloc (n : Z) (w : world) : option (Z * world) :=
  match mymalloc (heap w) (to_size_t n) with
  | Some (p, m) =>
      Some (p, {| cnt := cnt w; heap := m; logged := logged w;
                  mallocs := mallocs w ++ [(p, to_size_t n)] |})
  | None => None
  end.

(** Lines 196-200. *)
Definition allocate (w : world) : option world :=
  let i := imgs (cnt w) in
  let size_norm := frame_size (width i) (height i) in
  let size_high := frame_size (width_high i) (height_high i) in
  match call_mymalloc size_norm w with
  | Some (p, w1) =>
      let w2 := upd_crop (set_buffer_norm p) w1 in
      if size_high >? 0 then
        match call_mymalloc size_high w2 with
        | Some (q, w3) => Some (upd_rotate (set_rot_buffer_high q) w3)
        | None => None
        end
      else Some w2
  | None => None
  end.

(** [None]: the process was ended inside [mymalloc]. *)
Definition crop_init (w : world) : option world :=
  let w1 := transfer_capture (validate w) in
  let size_high :=
    frame_size (width_high (imgs (cnt w1))) (height_high (imgs (cnt w1))) in
  let w2 := swap_if_rotated size_high w1 in
  if no_margins (crop_data (cnt w2)) then Some w2
  else allocate (shrink w2).

End Allocator.

(** ** crop_map (crop.c, lines 239-316) *)

(** Lines 275-285: what one pass of the [while] loop works on. *)
Record variant := {
  img : Z;
  var_width : Z;
  var_height : Z;
  temp_buff : Z
}.

Definition select_variant (c : context) (img_data : image_data) (indx : Z) : variant :=
  let d := crop_data c in
  if indx =? 0 then
    {| img := image_norm img_data;
       var_width := capture_width_norm d;
       var_height := capture_height_norm d;
       temp_buff := buffer_norm d |}
  else
    {| img := image_high img_data;
       var_width := capture_width_high d;
       var_height := capture_height_high d;
       temp_buff := buffer_high d |}.

(** Lines 286-305: the pre-calculated sizes. *)
Record geometry := {
  widthc : Z;
  heightc : Z;
  wh : Z;
  whc : Z;
  size : Z;
  sizec : Z;
  wh4 : Z;
  wh4c : Z;
  w2 : Z;
  w2c : Z;
  h2 : Z;
  h2c : Z
}.

Definition precalc (width height left right : Z) : geometry :=
  let widthc := int_sub (int_sub width left) right in
  let heightc := int_sub (int_sub height left) right in
  let wh := int_mul width height in
  let whc := int_mul widthc heightc in
  {| widthc := widthc;
     heightc := heightc;
     wh := wh;
     whc := whc;
     size := int_div (int_mul wh 3) 2;
     sizec := int_div (int_mul whc 3) 2;
     wh4 := int_div wh 4;
     wh4c := int_div whc 4;
     w2 := int_div width 2;
     w2c := int_div widthc 2;
     h2 := int_div height 2;
     h2c := int_div heightc 2 |}.

(** The argument list of one call of [crop]. *)
Record crop_call := {
  arg_src : Z;
  arg_dst : Z;
  arg_size_src : Z;
  arg_size_dst : Z;
  arg_width_src : Z;
  arg_left : Z;
  arg_right : Z;
  arg_top : Z;
  arg_bottom : Z
}.

(** Line 307: the Y plane. *)
Definition luma_call (v : variant) (g : geometry) (left right top bottom : Z) : crop_call :=
  {| arg_src := img v;
     arg_dst := temp_buff v;
     arg_size_src := wh g;
     arg_size_dst := whc g;
     arg_width_src := var_width v;
     arg_left := left; arg_right := right; arg_top := top; arg_bottom := bottom |}.

(** Line 308: the U plane. *)
Definition chroma_u_call (v : variant) (g : geometry) (left right top bottom : Z) : crop_call :=
  {| arg_src := img v + wh g;
     arg_dst := temp_buff v + whc g;
     arg_size_src := wh4 g;
     arg_size_dst := wh4c g;
     arg_width_src := var_width v;
     arg_left := left; arg_right := right; arg_top := top; arg_bottom := bottom |}.

(** Line 309: the V plane. *)
Definition chroma_v_call (v : variant) (g : geometry) (left right top bottom : Z) : crop_call :=
  {| arg_src := img v + wh g + wh4 g;
     arg_dst := temp_buff v + whc g + wh4c g;
     arg_size_src := wh4 g;
     arg_size_dst := wh4c g;
     arg_width_src := var_width v;
     arg_left := left; arg_right := right; arg_top := top; arg_bottom := bottom |}.

Definition run_crop (fuel : nat) (m : gmap Z byte) (a : crop_call) : outcome (gmap Z byte) :=
  crop fuel m (arg_src a) (arg_dst a) (arg_size_src a) (arg_size_dst a)
    (arg_width_src a) (arg_left a) (arg_right a) (arg_top a) (arg_bottom a).

(** Lines 268-310: the body of the [while] loop for one value of [indx]. *)
Definition crop_variant (fuel : nat) (c : context) (img_data : image_data)
    (indx : Z) (m : gmap Z byte) : outcome (gmap Z byte) :=
  let left := px_left (crop_data c) in
  let right := px_right (crop_data c) in
  let top := px_top (crop_data c) in
  let bottom := px_bottom (crop_data c) in
  let v := select_variant c img_data indx in
  let g := precalc (var_width v) (var_height v) left right in
  m1 <~ run_crop fuel m (luma_call v g left right top bottom);
  m2 <~ run_crop fuel m1 (chroma_u_call v g left right top bottom);
  m3 <~ run_crop fuel m2 (chroma_v_call v g left right top bottom);
  memcpy m3 (img v) (temp_buff v) (sizec g).

(** Lines 267-313: [while (indx <= indx_max) { ...; indx++; }]. *)
Fixpoint crop_map_loop (fuel : nat) (c : context) (img_data : image_data)
    (indx indx_max : Z) (m : gmap Z byte) : outcome (gmap Z byte) :=
  match fuel with
  | O => Timeout
  | S f =>
      if indx <=? indx_max then
        m' <~ crop_variant f c img_data indx m;
        crop_map_loop f c img_data (int_add indx 1) indx_max m'
      else Done m
  end.

(** Line 265. *)
Definition high_present (d : crop_info) : bool :=
  negb (capture_width_high d =? 0) && negb (capture_height_high d =? 0).

(** The returned pair is the function's [int] result and the state it
    leaves behind. *)
Definition crop_map (fuel : nat) (w : world) (img_data : image_data)
  : outcome (Z * world) :=
  let d := crop_data (cnt w) in
  if no_margins d then Done (0, w)
  else
    let indx_max := if high_present d then 1 else 0 in
    m <~ crop_map_loop fuel (cnt w) img_data 0 indx_max (heap w);
    Done (0, with_heap m w).

(** ** What the specification asks of one plane

    Following the specification's words (section 4.2): drop [top] rows at
    the start and [bottom] rows at the end, and from each retained row drop
    [left] bytes at its start and [right] bytes at its end. *)

Fixpoint rows_of (w : nat) (n : nat) (plane : list byte) : list (list byte) :=
  match n with
  | O => []
  | S k => take w plane :: rows_of w k (drop w plane)
  end.

Definition keep_middle {A : Type} (front back : nat) (l : list A) : list A :=
  take (length l - front - back)%nat (drop front l).

Definition spec_crop_plane (w h left right top bottom : nat) (plane : list byte)
  : list byte :=
  concat (map (keep_middle left right) (keep_middle top bottom (rows_of w h plane))).

(** ** A concrete allocator and concrete frames, for examples *)

(** Highest allocated address (0 for the empty heap). *)
Definition top_of (m : gmap Z byte) : Z :=
  map_fold (fun a _ acc => Z.max a acc) 0 m.

(** Zero-filled blocks handed out above everything allocated so far;
    requests above [limit] bytes fail. *)
Definition calloc_above (limit : Z) (m : gmap Z byte) (n : Z) : option (Z * gmap Z byte) :=
  if n >? limit then None
  else
    let p := top_of m + 16 in
    Some (p, place p (replicate (Z.to_nat n) x00%byte) m).

Definition no_rotation : rotate_info :=
  {| degrees := 0;
     rot_capture_width_norm := 0; rot_capture_height_norm := 0;
     rot_capture_width_high := 0; rot_capture_height_high := 0;
     rot_buffer_high := NULL |}.

Definition blank_crop_data : crop_info :=
  {| px_left := 0; px_right := 0; px_top := 0; px_bottom := 0;
     capture_width_norm := 0; capture_height_norm := 0;
     capture_width_high := 0; capture_height_high := 0;
     buffer_norm := NULL; buffer_high := NULL |}.

(** A context as the host sets it up before [crop_init]: margins from the
    configuration file, dimensions of the two variants, no rotation. *)
Definition fresh_context (l r t b w h w_high h_high : Z) : context :=
  {| conf := {| crop_left := l; crop_right := r; crop_top := t; crop_bottom := b |};
     crop_data := blank_crop_data;
     rotate_data := no_rotation;
     imgs := {| width := w; height := h; width_high := w_high;
                height_high := h_high |} |}.

Definition fresh_world (c : context) (m : gmap Z byte) : world :=
  {| cnt := c; heap := m; logged := []; mallocs := [] |}.

(** A 4x4 frame: Y plane 16 bytes, U and V planes 4 bytes each. *)
Definition frame4x4 : list byte :=
  [ "A"; "B"; "C"; "D";
    "E"; "F"; "G"; "H";
    "I"; "J"; "K"; "L";
    "M"; "N"; "O"; "P";
    "q"; "r"; "s"; "t";
    "u"; "v"; "w"; "x" ]%byte.

(** Where the examples keep their frame, and the [image_data] for it (no
    High variant). *)
Definition frame_at : Z := 4096.

Definition heap4x4 : gmap Z byte := place frame_at frame4x4 ∅.

Definition img_norm_only : image_data := {| image_norm := frame_at; image_high := NULL |}.

(** An 8x8 frame of one repeated byte: Y plane 64 bytes, U and V 16 each. *)
Definition frame8x8 : list byte := replicate 96 "x"%byte.

Definition heap8x8 : gmap Z byte := place frame_at frame8x8 ∅.

(** The state [crop_init] leaves behind, for inputs on which the allocator
    succeeds (the input itself otherwise). *)
Definition after_init (mymalloc : gmap Z byte -> Z -> option (Z * gmap Z byte))
    (w : world) : world :=
  match crop_init mymalloc w with
  | Some w' => w'
  | None => w
  end.

Definition outcome_map {A B : Type} (f : A -> B) (o : outcome A) : outcome B :=
  match o with
  | Done a => Done (f a)
  | Fault => Fault
  | Timeout => Timeout
  end.

(** The four effective margins. *)
Definition margins_of (d : crop_info) : Z * Z * Z * Z :=
  (px_left d, px_right d, px_top d, px_bottom d).

(** [w'] differs from [w] at most in [conf], the four [px_*] fields and
    the log. *)
Definition margins_only (w w' : world) : Prop :=
  imgs (cnt w') = imgs (cnt w) /\
  rotate_data (cnt w') = rotate_data (cnt w) /\
  heap w' = heap w /\
  mallocs w' = mallocs w /\
  buffer_norm (crop_data (cnt w')) = buffer_norm (crop_data (cnt w)) /\
  buffer_high (crop_data (cnt w')) = buffer_high (crop_data (cnt w)).

(** Whether a call that may end the process came back. *)
Definition came_back {A : Type} (o : option A) : bool :=
  match o with
  | Some _ => true
  | None => false
  end.

(** What a caller of [crop_map] sees of a buffer afterwards: the returned
    [int] and [n] bytes at address [a]. *)
Definition result_and_bytes (a : Z) (n : nat) (o : outcome (Z * world))
  : outcome (Z * option (list byte)) :=
  outcome_map (fun rw => (fst rw, read_bytes (heap (snd rw)) a n)) o.

(** ** crop_deinit (crop.c, lines 215-222) *)

Section Deallocator.

(** [free] is the C library's; given the heap and an address it returns
    the heap without that block. *)
Variable free : gmap Z byte -> Z -> gmap Z byte.

(** The addresses handed to [free], in order, and the state left behind.
    The two pointers in [crop_data] are tested and read, never assigned. *)
Definition crop_deinit (w : world) : list Z * world :=
  let d := crop_data (cnt w) in
  let '(freed, m) :=
    if buffer_norm d =? NULL then ([], heap w)
    else ([buffer_norm d], free (heap w) (buffer_norm d)) in
  if buffer_high d =? NULL then (freed, with_heap m w)
  else (freed ++ [buffer_high d], with_heap (free m (buffer_high d)) w).

End Deallocator.

(** A [free] for the examples: unmaps the block that a table of
    (address, byte count) pairs lists at the address. *)
Fixpoint unmap (a : Z) (n : nat) (m : gmap Z byte) : gmap Z byte :=
  match n with
  | O => m
  | S k => delete a (unmap (a + 1) k m)
  end.

Definition free_listed (table : list (Z * Z)) (m : gmap Z byte) (p : Z) : gmap Z byte :=
  match find (fun e => fst e =? p) table with
  | Some (_, n) => unmap p (Z.to_nat n) m
  | None => m
  end.

(** ** Vocabulary for the further properties *)

(** What lines 80-120 leave in [conf]: negative margins replaced by 0. *)
Definition clamp_conf (c : config) : config :=
  {| crop_left := Z.max 0 (crop_left c);
     crop_right := Z.max 0 (crop_right c);
     crop_top := Z.max 0 (crop_top c);
     crop_bottom := Z.max 0 (crop_bottom c) |}.

Definition warn_if (b : bool) (msg : warning) : list warning :=
  if b then [msg] else [].

(** The messages of one run of lines 80-132 on configuration [c] and
    dimensions [i], in the order they are logged. *)
Definition validation_warnings (c : config) (i : images) : list warning :=
  let c' := clamp_conf c in
  warn_if (crop_left c <? 0) (NotPositive EdgeLeft (crop_left c)) ++
  warn_if (crop_right c <? 0) (NotPositive EdgeRight (crop_right c)) ++
  warn_if (crop_top c <? 0) (NotPositive EdgeTop (crop_top c)) ++
  warn_if (crop_bottom c <? 0) (NotPositive EdgeBottom (crop_bottom c)) ++
  warn_if (int_add (crop_left c') (crop_right c') >? width i)
    (WiderThanImage (crop_left c') (crop_right c') (width i)) ++
  warn_if (int_add (crop_top c') (crop_bottom c') >? height i)
    (TallerThanImage (crop_top c') (crop_bottom c') (height i)).

(** The four capture dimensions. *)
Definition capture_of (d : crop_info) : Z * Z * Z * Z :=
  (capture_width_norm d, capture_height_norm d,
   capture_width_high d, capture_height_high d).

(** Whether a run came back, and with what. *)
Definition returned {A : Type} (o : outcome A) : bool :=
  match o with
  | Done _ => true
  | _ => false
  end.

Definition outcome_value {A : Type} (o : outcome A) (default : A) : A :=
  match o with
  | Done a => a
  | _ => default
  end.

(** ** The pass as the specification words it, for comparison

    Section 4.2 has each chroma plane cropped "against the chroma plane's
    own (halved) row width".  This is [crop_variant] with that one change:
    the two chroma calls are given [w2] as row width. *)
Definition crop_variant_halved (fuel : nat) (c : context) (img_data : image_data)
    (indx : Z) (m : gmap Z byte) : outcome (gmap Z byte) :=
  let left := px_left (crop_data c) in
  let right := px_right (crop_data c) in
  let top := px_top (crop_data c) in
  let bottom := px_bottom (crop_data c) in
  let v := select_variant c img_data indx in
  let g := precalc (var_width v) (var_height v) left right in
  m1 <~ crop fuel m (img v) (temp_buff v) (wh g) (whc g) (var_width v)
          left right top bottom;
  m2 <~ crop fuel m1 (img v + wh g) (temp_buff v + whc g) (wh4 g) (wh4c g) (w2 g)
          left right top bottom;
  m3 <~ crop fuel m2 (img v + wh g + wh4 g) (temp_buff v + whc g + wh4c g)
          (wh4 g) (wh4c g) (w2 g) left right top bottom;
  memcpy m3 (img v) (temp_buff v) (sizec g).

(** A frame one pixel wide and eight high: Y plane 8 bytes, U and V planes
    2 bytes each. *)
Definition heap1x8 : gmap Z byte := place frame_at (replicate 12 "x"%byte) ∅.

(** A Normal 4x4 frame and a High 8x8 frame, both mapped. *)
Definition frame_high_at : Z := 8192.

Definition heap_two_frames : gmap Z byte := place frame_high_at frame8x8 heap4x4.

Definition img_two_frames : image_data :=
  {| image_norm := frame_at; image_high := frame_high_at |}.

(** * Properties *)

Lemma after_init_came_back (mymalloc : gmap Z byte -> Z -> option (Z * gmap Z byte))
    (w : world) :
  came_back (crop_init mymalloc w) = true ->
  crop_init mymalloc w = Some (after_init mymalloc w).
Proof.
  unfold after_init. destruct (crop_init mymalloc w); [reflexivity|discriminate].
Qed.

(** ** The loops of [crop] *)

Section CropLoops.

Variables (m : gmap Z byte) (left right : Z).

(** With [left <= right] the inner loop's guard is false at once. *)
Lemma crop_row_stops (f : nat) (base dst : Z) :
  left <= right ->
  crop_row (S f) m base dst left right = Done (m, base, dst).
Proof.
  intros Hle. simpl.
  destruct (base <? base + left - right) eqn:E; [|reflexivity].
  apply Z.ltb_lt in E. lia.
Qed.

End CropLoops.

(** With [right < left] the guard never becomes false: the loop can only
    end by leaving allocated memory. *)
Lemma crop_row_never_done (left right : Z) (fuel : nat) :
  right < left ->
  forall m base dst x, crop_row fuel m base dst left right <> Done x.
Proof.
  intros Hlt. induction fuel as [|f IH]; intros m base dst x; simpl.
  - discriminate.
  - assert (E : (base <? base + left - right) = true) by (apply Z.ltb_lt; lia).
    rewrite E. destruct (load m base) as [v|]; simpl; [|discriminate].
    destruct (store m dst v) as [m'|]; simpl; [apply IH | discriminate].
Qed.

(** Whenever the outer loop returns, it has written nothing. *)
Lemma crop_rows_pure (left right src_endp : Z) (fuel : nat) :
  forall m base dst m',
    crop_rows fuel m base dst src_endp left right = Done m' -> m' = m.
Proof.
  induction fuel as [|f IH]; intros m base dst m'; simpl; [discriminate|].
  destruct (base <? src_endp); [|congruence].
  destruct (Z_le_gt_dec left right) as [Hle|Hgt].
  - destruct f as [|f']; [simpl; discriminate|].
    rewrite crop_row_stops by assumption. cbn [bind]. apply IH.
  - pose proof (crop_row_never_done left right f ltac:(lia) m (base + left) dst) as Hn.
    destruct (crop_row f m (base + left) dst left right) as [x| |]; simpl;
      try discriminate.
    exfalso. exact (Hn x eq_refl).
Qed.

(** [crop] never copies a byte. *)
Lemma crop_pure (fuel : nat) (m m' : gmap Z byte)
    (src dst size_src size_dst width_src left right top bottom : Z) :
  crop fuel m src dst size_src size_dst width_src left right top bottom = Done m' ->
  m' = m.
Proof. unfold crop. apply crop_rows_pure. Qed.

(** No progress: [left <= right] and [left + right <= 0] keep [base] below
    [src_endp] for ever. *)
Lemma crop_rows_stuck (left right src_endp : Z) (fuel : nat) :
  left <= right -> left + right <= 0 ->
  forall m base dst,
    base < src_endp ->
    crop_rows fuel m base dst src_endp left right = Timeout.
Proof.
  intros Hle Hsum. induction fuel as [|f IH]; intros m base dst Hb; simpl; [reflexivity|].
  assert (E : (base <? src_endp) = true) by (apply Z.ltb_lt; lia).
  rewrite E. destruct f as [|f']; [reflexivity|].
  rewrite crop_row_stops by assumption. cbn [bind].
  apply IH. lia.
Qed.

(** With [right < left] the outer loop, once entered, does not return. *)
Lemma crop_rows_no_return (left right src_endp : Z) (fuel : nat) :
  right < left ->
  forall m base dst m',
    base < src_endp ->
    crop_rows fuel m base dst src_endp left right <> Done m'.
Proof.
  intros Hlt m base dst m' Hb. destruct fuel as [|f]; simpl; [discriminate|].
  assert (E : (base <? src_endp) = true) by (apply Z.ltb_lt; lia).
  rewrite E.
  pose proof (crop_row_never_done left right f Hlt m (base + left) dst) as Hn.
  destruct (crop_row f m (base + left) dst left right) as [x| |]; simpl;
    try discriminate.
  exfalso. exact (Hn x eq_refl).
Qed.

(** With [left <= right] and [0 < left + right] the outer loop returns,
    given fuel for its iterations. *)
Lemma crop_rows_returns (left right src_endp : Z) :
  left <= right -> 0 < left + right ->
  forall (n : nat) m base dst (fuel : nat),
    src_endp - base <= Z.of_nat n * (left + right) ->
    (n + 2 <= fuel)%nat ->
    crop_rows fuel m base dst src_endp left right = Done m.
Proof.
  intros Hle Hpos. induction n as [|n IH]; intros m base dst fuel Hd Hf.
  - destruct fuel as [|f]; [lia|]. simpl.
    assert (E : (base <? src_endp) = false) by (apply Z.ltb_ge; lia).
    now rewrite E.
  - destruct fuel as [|f]; [lia|]. simpl.
    destruct (base <? src_endp) eqn:E; [|reflexivity].
    destruct f as [|f']; [lia|].
    rewrite crop_row_stops by assumption. cbn [bind].
    apply IH; lia.
Qed.

(** ** [crop_map] as a whole *)

(** The first call of [crop] in the first pass decides whether the pass can
    come back. *)
Lemma crop_variant_first_call (fuel : nat) (c : context) (img_data : image_data)
    (m : gmap Z byte) :
  let d := crop_data c in
  let g := precalc (capture_width_norm d) (capture_height_norm d)
             (px_left d) (px_right d) in
  forall r,
    crop_rows fuel m
      (image_norm img_data + int_mul (capture_width_norm d) (px_top d))
      (buffer_norm d) (image_norm img_data + wh g) (px_left d) (px_right d) = r ->
    (r = Timeout -> crop_variant fuel c img_data 0 m = Timeout) /\
    ((forall m', r <> Done m') -> forall m', crop_variant fuel c img_data 0 m <> Done m').
Proof.
  intros d g r Hr. unfold crop_variant, run_crop, crop.
  change (select_variant c img_data 0) with
    {| img := image_norm img_data; var_width := capture_width_norm d;
       var_height := capture_height_norm d; temp_buff := buffer_norm d |}.
  cbn [luma_call arg_src arg_dst arg_size_src arg_width_src arg_left arg_right
       arg_top img var_width var_height temp_buff].
  fold d. fold g. rewrite Hr. split.
  - intros ->. reflexivity.
  - intros Hn m'. destruct r as [x| |]; cbn [bind]; try discriminate.
    exfalso. exact (Hn x eq_refl).
Qed.

(** Margins with [left <= right] and [left + right <= 0], and a first row
    inside the Y plane: [crop_map] does not come back. *)
Lemma crop_map_stuck (w : world) (img_data : image_data) (fuel : nat) :
  let d := crop_data (cnt w) in
  no_margins d = false ->
  px_left d <= px_right d ->
  px_left d + px_right d <= 0 ->
  int_mul (capture_width_norm d) (px_top d)
    < int_mul (capture_width_norm d) (capture_height_norm d) ->
  crop_map fuel w img_data = Timeout.
Proof.
  intros d Hn Hle Hsum Hlt. unfold crop_map. fold d. rewrite Hn.
  destruct fuel as [|f]; [reflexivity|]. cbn [crop_map_loop].
  assert (E : (0 <=? (if high_present d then 1 else 0)) = true)
    by (destruct (high_present d); reflexivity).
  rewrite E.
  destruct (crop_variant_first_call f (cnt w) img_data (heap w) _ eq_refl) as [Ht _].
  rewrite Ht; [reflexivity|].
  apply crop_rows_stuck; try assumption.
  fold d. cbn [wh precalc]. lia.
Qed.

(** Margins with [right < left], and a first row inside the Y plane:
    [crop_map] does not return either (it runs until it faults). *)
Lemma crop_map_no_return (w : world) (img_data : image_data) (fuel : nat) :
  let d := crop_data (cnt w) in
  px_right d < px_left d ->
  int_mul (capture_width_norm d) (px_top d)
    < int_mul (capture_width_norm d) (capture_height_norm d) ->
  forall r, crop_map fuel w img_data <> Done r.
Proof.
  intros d Hlt Hin r. unfold crop_map. fold d.
  destruct (no_margins d) eqn:Hn.
  - unfold no_margins in Hn.
    destruct (px_left d =? 0) eqn:El; [|discriminate].
    destruct (px_right d =? 0) eqn:Er; [|discriminate].
    apply Z.eqb_eq in El, Er. lia.
  - destruct fuel as [|f]; [discriminate|]. cbn [crop_map_loop].
    assert (E : (0 <=? (if high_present d then 1 else 0)) = true)
      by (destruct (high_present d); reflexivity).
    rewrite E.
    destruct (crop_variant_first_call f (cnt w) img_data (heap w) _ eq_refl) as [_ Hd].
    match goal with
    | |- bind (bind ?o ?k) _ <> _ =>
        assert (Ho : forall m', o <> Done m'); [|destruct o as [x| |]]
    end.
    + apply Hd. intros m'. apply crop_rows_no_return; [assumption|].
      fold d. cbn [wh precalc]. lia.
    + exfalso. exact (Ho x eq_refl).
    + discriminate.
    + discriminate.
Qed.

(** Whenever one pass of the loop comes back, the three calls of [crop]
    have changed nothing: the pass amounts to its final [memcpy]. *)
Lemma crop_variant_is_memcpy (fuel : nat) (c : context) (img_data : image_data)
    (indx : Z) (m m' : gmap Z byte) :
  crop_variant fuel c img_data indx m = Done m' ->
  let v := select_variant c img_data indx in
  let g := precalc (var_width v) (var_height v)
             (px_left (crop_data c)) (px_right (crop_data c)) in
  memcpy m (img v) (temp_buff v) (sizec g) = Done m'.
Proof.
  unfold crop_variant, run_crop. cbv zeta.
  destruct (crop fuel m _ _ _ _ _ _ _ _ _) as [m1| |] eqn:E1; cbn [bind];
    try discriminate.
  apply crop_pure in E1. subst m1.
  destruct (crop fuel m _ _ _ _ _ _ _ _ _) as [m2| |] eqn:E2; cbn [bind];
    try discriminate.
  apply crop_pure in E2. subst m2.
  destruct (crop fuel m _ _ _ _ _ _ _ _ _) as [m3| |] eqn:E3; cbn [bind];
    try discriminate.
  apply crop_pure in E3. subst m3.
  intros H. exact H.
Qed.

(** With the High variant absent, a [crop_map] that comes back with margins
    set has returned 0 and copied [sizec] bytes of the staging buffer, as
    [crop_init] left it, over the frame. *)
Lemma crop_map_is_memcpy (fuel : nat) (w w' : world) (img_data : image_data) (r : Z) :
  let d := crop_data (cnt w) in
  let g := precalc (capture_width_norm d) (capture_height_norm d)
             (px_left d) (px_right d) in
  no_margins d = false ->
  high_present d = false ->
  crop_map fuel w img_data = Done (r, w') ->
  r = 0 /\
  cnt w' = cnt w /\
  memcpy (heap w) (image_norm img_data) (buffer_norm d) (sizec g) = Done (heap w').
Proof.
  intros d g Hn Hh. unfold crop_map. fold d. rewrite Hn, Hh.
  destruct fuel as [|f]; [discriminate|]. cbn [crop_map_loop].
  change (0 <=? 0) with true. cbv iota.
  destruct (crop_variant f (cnt w) img_data 0 (heap w)) as [m1| |] eqn:E;
    cbn [bind]; try discriminate.
  apply crop_variant_is_memcpy in E. cbv zeta in E.
  destruct f as [|f']; [discriminate|]. cbn [crop_map_loop].
  change (int_add 0 1 <=? 0) with false. cbv iota. cbn [bind].
  intros [= <- <-]. repeat apply conj; try reflexivity. exact E.
Qed.

(** * The claims *)

(** C1 (the code departs from it).  The claim: for every plane [crop] skips
    [top] rows, skips [bottom] rows at the end, drops [left] and [right]
    bytes of each retained row and copies the middle span to the staging
    buffer, which is then copied over the start of the frame.  On a 4x4
    frame with margins (1,1,1,1), initialised by [crop_init], [crop_map]
    returns 0 having written nothing to the staging buffer: the frame's
    leading 6 bytes become the staging buffer's untouched (zero) bytes,
    where the claim puts the middle span "FGJK" of the Y plane. *)
Theorem crop_map_4x4_copies_nothing :
  let mymalloc := calloc_above 65536 in
  let w0 := fresh_world (fresh_context 1 1 1 1 4 4 0 0) heap4x4 in
  let w := after_init mymalloc w0 in
  let staging := buffer_norm (crop_data (cnt w)) in
  came_back (crop_init mymalloc w0) = true /\
  nth_error (mallocs w) 0 = Some (staging, 6) /\
  read_bytes (heap w) staging 6 = Some (replicate 6 x00%byte) /\
  result_and_bytes staging 6 (crop_map 64 w img_norm_only)
    = Done (0, Some (replicate 6 x00%byte)) /\
  result_and_bytes frame_at 24 (crop_map 64 w img_norm_only)
    = Done (0, Some (replicate 6 x00%byte ++ drop 6 frame4x4)) /\
  spec_crop_plane 4 4 1 1 1 1 (take 16 frame4x4) = ["F"; "G"; "J"; "K"]%byte.
Proof.
  intros mymalloc w0 w staging. repeat apply conj; vm_compute; reflexivity.
Qed.

(** C2 (the code departs from it).  The claim: a WxH frame cropped by
    (l,r,t,b) comes out as (W-l-r)x(H-t-b) with width*height*3/2 bytes;
    100x80 with (10,10,5,5) gives 80x70 and 8400 bytes.  [crop_init] does
    report 80x70 and asks for 8400 bytes, but [crop_map] subtracts [left]
    and [right] from the height as well: its cropped frame is 80x60 and it
    copies 7200 bytes back.  On an 8x8 frame with margins (1,2,1,0) the
    initialisation announces 5x7 (52 bytes) and [crop_map] overwrites the
    first 37 bytes of the frame only. *)
Theorem crop_map_100x80_height_uses_left_right :
  let mymalloc := calloc_above 65536 in
  let w := after_init mymalloc (fresh_world (fresh_context 10 10 5 5 100 80 0 0) ∅) in
  let d := crop_data (cnt w) in
  let v := select_variant (cnt w) img_norm_only 0 in
  let g := precalc (var_width v) (var_height v) (px_left d) (px_right d) in
  let w8 := after_init mymalloc (fresh_world (fresh_context 1 2 1 0 8 8 0 0) heap8x8) in
  (width (imgs (cnt w)), height (imgs (cnt w))) = (80, 70) /\
  nth_error (mallocs w) 0 = Some (buffer_norm d, 8400) /\
  (widthc g, heightc g, sizec g) = (80, 60, 7200) /\
  (width (imgs (cnt w8)), height (imgs (cnt w8))) = (5, 7) /\
  nth_error (mallocs w8) 0 = Some (buffer_norm (crop_data (cnt w8)), 52) /\
  result_and_bytes frame_at 96 (crop_map 64 w8 img_norm_only)
    = Done (0, Some (replicate 37 x00%byte ++ replicate 59 "x"%byte)).
Proof.
  intros mymalloc w d v g w8. repeat apply conj; vm_compute; reflexivity.
Qed.

(** C3 (the code departs from it).  The claim: after a successful
    initialisation [crop_map] terminates and returns 0.  Initialised on a
    4x4 frame with margins (0,0,1,0), [crop_map] exhausts every amount of
    fuel: the outer loop of [crop] advances [base] by [left + right = 0].
    With margins (2,1,1,1) the inner loop's guard stays true, so no amount
    of fuel makes [crop_map] return. *)
Theorem crop_map_4x4_does_not_return :
  let mymalloc := calloc_above 65536 in
  let w0 := fresh_world (fresh_context 0 0 1 0 4 4 0 0) heap4x4 in
  let w1 := fresh_world (fresh_context 2 1 1 1 4 4 0 0) heap4x4 in
  came_back (crop_init mymalloc w0) = true /\
  came_back (crop_init mymalloc w1) = true /\
  (forall fuel, crop_map fuel (after_init mymalloc w0) img_norm_only = Timeout) /\
  (forall fuel r, crop_map fuel (after_init mymalloc w1) img_norm_only <> Done r).
Proof.
  intros mymalloc w0 w1.
  split; [vm_compute; reflexivity|].
  split; [vm_compute; reflexivity|].
  split.
  - intros fuel. apply crop_map_stuck.
    + vm_compute; reflexivity.
    + vm_compute; discriminate.
    + vm_compute; discriminate.
    + vm_compute; reflexivity.
  - intros fuel r. apply crop_map_no_return.
    + vm_compute; reflexivity.
    + vm_compute; reflexivity.
Qed.

(** ** What [check_right] assigns *)

Lemma check_right_negative (w : world) :
  crop_right (conf (cnt w)) < 0 ->
  px_left (crop_data (cnt (check_right w))) = 0 /\
  px_right (crop_data (cnt (check_right w))) = px_right (crop_data (cnt w)) /\
  crop_right (conf (cnt (check_right w))) = 0.
Proof.
  intros Hneg. unfold check_right.
  assert (E : (crop_right (conf (cnt w)) <? 0) = true) by (apply Z.ltb_lt; lia).
  rewrite E. repeat split.
Qed.

(** C4 (the code departs from it).  The claim: a negative margin is reset
    to zero with a warning and no other edge's margin changes.  With
    crop_left = 10 and crop_right = -5 the warning is logged, but the
    branch for the right edge assigns [px_left]: the effective left margin
    drops from 10 to 0 and cropping is switched off altogether.  The
    effective right margin is not assigned at all: a context that enters
    with [px_right = 7] leaves with [px_right = 7] and a frame narrowed
    by 7. *)
Theorem crop_init_negative_right_touches_left :
  let mymalloc := calloc_above 65536 in
  let c0 := fresh_context 10 (-5) 0 0 100 80 0 0 in
  let w := after_init mymalloc (fresh_world c0 ∅) in
  let c1 := {| conf := conf (fresh_context 0 (-5) 0 0 100 80 0 0);
               crop_data := set_px_right 7 blank_crop_data;
               rotate_data := no_rotation;
               imgs := imgs c0 |} in
  let w' := after_init mymalloc (fresh_world c1 ∅) in
  came_back (crop_init mymalloc (fresh_world c0 ∅)) = true /\
  logged w = [NotPositive EdgeRight (-5)] /\
  crop_left (conf (cnt w)) = 10 /\
  px_left (crop_data (cnt w)) = 0 /\
  no_margins (crop_data (cnt w)) = true /\
  came_back (crop_init mymalloc (fresh_world c1 ∅)) = true /\
  logged w' = [NotPositive EdgeRight (-5)] /\
  px_right (crop_data (cnt w')) = 7 /\
  width (imgs (cnt w')) = 93.
Proof.
  intros mymalloc c0 w c1 w'. repeat apply conj; vm_compute; reflexivity.
Qed.

(** C5 (the code departs from it).  The claim: one staging buffer per
    present variant, sized for its cropped frame, and none for an absent
    variant.  With the High variant absent (0x0) and margins (10,10,5,5)
    on a 100x80 frame, [size_high] is (-20)*(-10)*3/2 = 300 > 0 and a
    second block of 300 bytes is requested; its address goes to
    [rotate_data.buffer_high]. *)
Theorem crop_init_allocates_for_absent_high :
  let mymalloc := calloc_above 65536 in
  let w0 := fresh_world (fresh_context 10 10 5 5 100 80 0 0) ∅ in
  let w := after_init mymalloc w0 in
  came_back (crop_init mymalloc w0) = true /\
  high_present (crop_data (cnt w)) = false /\
  (width_high (imgs (cnt w0)), height_high (imgs (cnt w0))) = (0, 0) /\
  mallocs w = [(buffer_norm (crop_data (cnt w)), 8400);
               (rot_buffer_high (rotate_data (cnt w)), 300)] /\
  rot_buffer_high (rotate_data (cnt w)) <> NULL /\
  buffer_high (crop_data (cnt w)) = NULL.
Proof.
  intros mymalloc w0 w. repeat apply conj; try (vm_compute; reflexivity).
  vm_compute. discriminate.
Qed.

(** ** What the steps of [crop_init] leave alone *)

Ltac case_ifs :=
  repeat match goal with
         | |- context [if ?b then _ else _] => destruct b
         end.

Lemma margins_only_trans (w1 w2 w3 : world) :
  margins_only w1 w2 -> margins_only w2 w3 -> margins_only w1 w3.
Proof.
  unfold margins_only.
  intros (A1 & A2 & A3 & A4 & A5 & A6) (B1 & B2 & B3 & B4 & B5 & B6).
  repeat apply conj; congruence.
Qed.

Ltac step_frame f :=
  unfold f, margins_only; case_ifs; cbn; repeat apply conj; reflexivity.

Lemma check_left_frame (w : world) : margins_only w (check_left w).
Proof. step_frame check_left. Qed.

Lemma check_right_frame (w : world) : margins_only w (check_right w).
Proof. step_frame check_right. Qed.

Lemma check_top_frame (w : world) : margins_only w (check_top w).
Proof. step_frame check_top. Qed.

Lemma check_bottom_frame (w : world) : margins_only w (check_bottom w).
Proof. step_frame check_bottom. Qed.

Lemma check_width_frame (w : world) : margins_only w (check_width w).
Proof. step_frame check_width. Qed.

Lemma check_height_frame (w : world) : margins_only w (check_height w).
Proof. step_frame check_height. Qed.

(** Lines 73-132 touch [conf], the four [px_*] fields, the two crop
    buffers (set to NULL) and the log, nothing else. *)
Lemma validate_frame (w : world) :
  imgs (cnt (validate w)) = imgs (cnt w) /\
  rotate_data (cnt (validate w)) = rotate_data (cnt w) /\
  heap (validate w) = heap w /\
  mallocs (validate w) = mallocs w /\
  buffer_norm (crop_data (cnt (validate w))) = NULL /\
  buffer_high (crop_data (cnt (validate w))) = NULL.
Proof.
  assert (H : margins_only (clear_buffers w) (validate w)).
  { unfold validate.
    eapply margins_only_trans; [apply check_left_frame|].
    eapply margins_only_trans; [apply check_right_frame|].
    eapply margins_only_trans; [apply check_top_frame|].
    eapply margins_only_trans; [apply check_bottom_frame|].
    eapply margins_only_trans; [apply check_width_frame|].
    apply check_height_frame. }
  destruct H as (H1 & H2 & H3 & H4 & H5 & H6).
  rewrite H1, H2, H3, H4, H5, H6. repeat apply conj; reflexivity.
Qed.

(** Lines 146-163 touch the capture dimensions and [imgs]. *)
Lemma capture_frame (s : Z) (w : world) :
  let w' := swap_if_rotated s (transfer_capture w) in
  conf (cnt w') = conf (cnt w) /\
  rotate_data (cnt w') = rotate_data (cnt w) /\
  heap w' = heap w /\
  mallocs w' = mallocs w /\
  logged w' = logged w /\
  margins_of (crop_data (cnt w')) = margins_of (crop_data (cnt w)).
Proof.
  unfold swap_if_rotated, transfer_capture. case_ifs; cbn; repeat apply conj; reflexivity.
Qed.

Lemma capture_keeps_margins (s : Z) (w : world) :
  no_margins (crop_data (cnt (swap_if_rotated s (transfer_capture w))))
  = no_margins (crop_data (cnt w)).
Proof. unfold swap_if_rotated, transfer_capture. case_ifs; reflexivity. Qed.

Lemma capture_keeps_buffers (s : Z) (w : world) :
  let w' := swap_if_rotated s (transfer_capture w) in
  buffer_norm (crop_data (cnt w')) = buffer_norm (crop_data (cnt w)) /\
  buffer_high (crop_data (cnt w')) = buffer_high (crop_data (cnt w)).
Proof. unfold swap_if_rotated, transfer_capture. case_ifs; split; reflexivity. Qed.

(** Lines 180-194 touch [imgs] only. *)
Lemma shrink_frame (w : world) :
  crop_data (cnt (shrink w)) = crop_data (cnt w) /\
  rotate_data (cnt (shrink w)) = rotate_data (cnt w) /\
  conf (cnt (shrink w)) = conf (cnt w) /\
  heap (shrink w) = heap w /\
  mallocs (shrink w) = mallocs w.
Proof. repeat apply conj; reflexivity. Qed.

(** Lines 196-200: what is requested from [mymalloc] and where the
    returned addresses are kept. *)
Lemma allocate_buffers (mymalloc : gmap Z byte -> Z -> option (Z * gmap Z byte))
    (w w' : world) :
  allocate mymalloc w = Some w' ->
  let i := imgs (cnt w) in
  let size_norm := frame_size (width i) (height i) in
  let size_high := frame_size (width_high i) (height_high i) in
  buffer_high (crop_data (cnt w')) = buffer_high (crop_data (cnt w)) /\
  imgs (cnt w') = i /\
  exists p,
    buffer_norm (crop_data (cnt w')) = p /\
    ((size_high <= 0 /\
      mallocs w' = mallocs w ++ [(p, to_size_t size_norm)] /\
      rot_buffer_high (rotate_data (cnt w')) = rot_buffer_high (rotate_data (cnt w))) \/
     (0 < size_high /\
      exists q,
        mallocs w' = (mallocs w ++ [(p, to_size_t size_norm)]) ++ [(q, to_size_t size_high)] /\
        rot_buffer_high (rotate_data (cnt w')) = q)).
Proof.
  unfold allocate, call_mymalloc. cbn.
  destruct (mymalloc (heap w) _) as [[p m1]|]; [|discriminate]. cbn.
  destruct (_ >? 0) eqn:E.
  - destruct (mymalloc m1 _) as [[q m2]|]; [|discriminate].
    intros [= <-]. cbn. repeat apply conj; try reflexivity.
    exists p. split; [reflexivity|]. right.
    split; [apply Z.gtb_lt in E; lia|]. exists q. split; reflexivity.
  - intros [= <-]. cbn. repeat apply conj; try reflexivity.
    exists p. split; [reflexivity|]. left.
    split; [|split; reflexivity].
    rewrite Z.gtb_ltb in E. apply Z.ltb_ge in E. exact E.
Qed.

Lemma allocate_margins (mymalloc : gmap Z byte -> Z -> option (Z * gmap Z byte))
    (w w' : world) :
  allocate mymalloc w = Some w' ->
  conf (cnt w') = conf (cnt w) /\
  margins_of (crop_data (cnt w')) = margins_of (crop_data (cnt w)).
Proof.
  unfold allocate, call_mymalloc. cbn.
  destruct (mymalloc (heap w) _) as [[p m1]|]; [|discriminate]. cbn.
  destruct (_ >? 0).
  - destruct (mymalloc m1 _) as [[q m2]|]; [|discriminate].
    intros [= <-]. split; reflexivity.
  - intros [= <-]. split; reflexivity.
Qed.

(** With no negative margin, lines 80-120 copy the configuration. *)
Lemma checks_copy (w : world) :
  let c := conf (cnt w) in
  0 <= crop_left c -> 0 <= crop_right c -> 0 <= crop_top c -> 0 <= crop_bottom c ->
  check_bottom (check_top (check_right (check_left w)))
  = upd_crop (set_px (crop_left c) (crop_right c) (crop_top c) (crop_bottom c)) w.
Proof.
  intros c Hl Hr Ht Hb.
  assert (El : (crop_left c <? 0) = false) by (apply Z.ltb_ge; lia).
  assert (Er : (crop_right c <? 0) = false) by (apply Z.ltb_ge; lia).
  assert (Et : (crop_top c <? 0) = false) by (apply Z.ltb_ge; lia).
  assert (Eb : (crop_bottom c <? 0) = false) by (apply Z.ltb_ge; lia).
  unfold check_left. fold c. rewrite El.
  unfold check_right. cbn [upd_crop with_cnt cnt conf]. fold c. rewrite Er.
  unfold check_top. cbn [upd_crop with_cnt cnt conf]. fold c. rewrite Et.
  unfold check_bottom. cbn [upd_crop with_cnt cnt conf]. fold c. rewrite Eb.
  reflexivity.
Qed.

Lemma validate_copies (w : world) :
  let c := conf (cnt w) in
  0 <= crop_left c -> 0 <= crop_right c -> 0 <= crop_top c -> 0 <= crop_bottom c ->
  let d := crop_data (cnt (validate w)) in
  conf (cnt (validate w)) = c /\
  px_left d = crop_left c /\ px_right d = crop_right c /\
  px_top d = crop_top c /\ px_bottom d = crop_bottom c.
Proof.
  intros c Hl Hr Ht Hb.
  unfold validate, check_height, check_width.
  rewrite (checks_copy (clear_buffers w) Hl Hr Ht Hb).
  case_ifs; cbn; repeat apply conj; reflexivity.
Qed.

(** Lines 155-163, as a function of what they read. *)
Lemma swap_if_rotated_imgs (s : Z) (w : world) :
  let r := rotate_data (cnt w) in
  let i := imgs (cnt w) in
  imgs (cnt (swap_if_rotated s w))
  = if (degrees r =? 90) || (degrees r =? 270) then
      {| width := rot_capture_height_norm r;
         height := rot_capture_width_norm r;
         width_high := if s >? 0 then rot_capture_height_high r else width_high i;
         height_high := if s >? 0 then rot_capture_width_high r else height_high i |}
    else i.
Proof.
  unfold swap_if_rotated. cbv zeta.
  destruct ((degrees (rotate_data (cnt w)) =? 90) || (degrees (rotate_data (cnt w)) =? 270));
    [|reflexivity].
  destruct (s >? 0); reflexivity.
Qed.

(** [crop_variant] reads [crop_data] and nothing else of the context. *)
Lemma crop_variant_reads_crop_data (fuel : nat) (c1 c2 : context)
    (img_data : image_data) (indx : Z) (m : gmap Z byte) :
  crop_data c1 = crop_data c2 ->
  crop_variant fuel c1 img_data indx m = crop_variant fuel c2 img_data indx m.
Proof.
  intros E. unfold crop_variant, select_variant. rewrite E. reflexivity.
Qed.

Lemma crop_map_loop_reads_crop_data (c1 c2 : context) (img_data : image_data)
    (indx_max : Z) (fuel : nat) :
  crop_data c1 = crop_data c2 ->
  forall indx m,
    crop_map_loop fuel c1 img_data indx indx_max m
    = crop_map_loop fuel c2 img_data indx indx_max m.
Proof.
  intros E. induction fuel as [|f IH]; intros indx m; cbn [crop_map_loop]; [reflexivity|].
  destruct (indx <=? indx_max); [|reflexivity].
  rewrite (crop_variant_reads_crop_data f c1 c2 img_data indx m E).
  destruct (crop_variant f c2 img_data indx m); cbn [bind]; auto.
Qed.

(** The margins and the configuration that [crop_init] leaves are those
    of lines 73-132. *)
Lemma crop_init_margins (mymalloc : gmap Z byte -> Z -> option (Z * gmap Z byte))
    (w w' : world) :
  crop_init mymalloc w = Some w' ->
  conf (cnt w') = conf (cnt (validate w)) /\
  margins_of (crop_data (cnt w')) = margins_of (crop_data (cnt (validate w))).
Proof.
  unfold crop_init. cbv zeta.
  set (s := frame_size _ _).
  pose proof (capture_frame s (validate w)) as (Hc & _ & _ & _ & _ & Hd).
  pose proof (shrink_frame (swap_if_rotated s (transfer_capture (validate w))))
    as (Sd & _ & Sc & _).
  revert Hc Hd Sd Sc.
  generalize (swap_if_rotated s (transfer_capture (validate w))) as w2.
  intros w2 Hc Hd Sd Sc.
  destruct (no_margins _).
  - intros [= <-]. split; assumption.
  - intros Ha. apply allocate_margins in Ha as [Hc' Hd'].
    rewrite Sc in Hc'. rewrite Sd in Hd'. split; congruence.
Qed.

(** ** [crop_init] on margins that fit the frame *)

Lemma wrap_id (z : Z) : in_int z -> wrap z = z.
Proof.
  unfold in_int, wrap. intros H. rewrite Z.mod_small; lia.
Qed.

Lemma frame_size_exact (a b : Z) :
  0 <= a < 2 ^ 14 -> 0 <= b < 2 ^ 14 ->
  frame_size a b = a * b * 3 / 2 /\
  to_size_t (frame_size a b) = a * b * 3 / 2.
Proof.
  intros Ha Hb.
  assert (Hab : 0 <= a * b < 2 ^ 28) by nia.
  assert (Hq : 0 <= a * b * 3 / 2 < 2 ^ 30).
  { split; [apply Z.div_pos; lia|]. apply Z.div_lt_upper_bound; lia. }
  assert (E : frame_size a b = a * b * 3 / 2).
  { unfold frame_size, int_div, int_mul.
    rewrite (wrap_id (a * b)) by (unfold in_int; lia).
    rewrite (wrap_id (a * b * 3)) by (unfold in_int; lia).
    rewrite Z.quot_div_nonneg by lia.
    apply wrap_id. unfold in_int. lia. }
  split; [exact E|].
  rewrite E. unfold to_size_t. apply Z.mod_small. lia.
Qed.

Lemma swap_if_rotated_off (s : Z) (w : world) :
  degrees (rotate_data (cnt w)) <> 90 ->
  degrees (rotate_data (cnt w)) <> 270 ->
  swap_if_rotated s w = w.
Proof.
  intros H90 H270. unfold swap_if_rotated. cbv zeta.
  destruct (Z.eqb_spec (degrees (rotate_data (cnt w))) 90); [contradiction|].
  destruct (Z.eqb_spec (degrees (rotate_data (cnt w))) 270); [contradiction|].
  reflexivity.
Qed.

(** X15.  Without a 90 or 270 degree rotation, and with non-negative margins,
    not all zero, that fit a frame below 16384x16384, [crop_init] reports the
    dimensions (W - l - r, H - t - b) and its first request to [mymalloc]
    is for width * height * 3 / 2 bytes of the cropped frame. *)
Lemma crop_init_reports_cropped_size
    (mymalloc : gmap Z byte -> Z -> option (Z * gmap Z byte)) (w w' : world) :
  let c := conf (cnt w) in
  let i := imgs (cnt w) in
  let wc := width i - crop_left c - crop_right c in
  let hc := height i - crop_top c - crop_bottom c in
  crop_init mymalloc w = Some w' ->
  degrees (rotate_data (cnt w)) <> 90 ->
  degrees (rotate_data (cnt w)) <> 270 ->
  0 <= crop_left c -> 0 <= crop_right c -> 0 <= crop_top c -> 0 <= crop_bottom c ->
  0 < crop_left c + crop_right c + crop_top c + crop_bottom c ->
  crop_left c + crop_right c <= width i < 2 ^ 14 ->
  crop_top c + crop_bottom c <= height i < 2 ^ 14 ->
  width (imgs (cnt w')) = wc /\
  height (imgs (cnt w')) = hc /\
  nth_error (mallocs w') (length (mallocs w))
  = Some (buffer_norm (crop_data (cnt w')), wc * hc * 3 / 2).
Proof.
  intros c i wc hc Hi H90 H270 Hl Hr Ht Hb Hsum Hw Hh.
  pose proof (validate_frame w) as (Vi & Vr & _ & Vm & _ & _).
  pose proof (validate_copies w Hl Hr Ht Hb) as (_ & Pl & Pr & Pt & Pb).
  cbv zeta in Pl, Pr, Pt, Pb. fold c in Pl, Pr, Pt, Pb. fold i in Vi.
  revert Hi. unfold crop_init. cbv zeta.
  revert Vi Vr Vm Pl Pr Pt Pb. generalize (validate w) as wv.
  intros wv Vi Vr Vm Pl Pr Pt Pb.
  rewrite swap_if_rotated_off
    by (change (rotate_data (cnt (transfer_capture wv))) with (rotate_data (cnt wv));
        rewrite Vr; assumption).
  assert (Hn : no_margins (crop_data (cnt (transfer_capture wv))) = false).
  { unfold no_margins.
    change (px_left (crop_data (cnt (transfer_capture wv)))) with (px_left (crop_data (cnt wv))).
    change (px_right (crop_data (cnt (transfer_capture wv)))) with (px_right (crop_data (cnt wv))).
    change (px_top (crop_data (cnt (transfer_capture wv)))) with (px_top (crop_data (cnt wv))).
    change (px_bottom (crop_data (cnt (transfer_capture wv)))) with (px_bottom (crop_data (cnt wv))).
    rewrite Pl, Pr, Pt, Pb.
    destruct (Z.eqb_spec (crop_left c) 0); [|reflexivity].
    destruct (Z.eqb_spec (crop_right c) 0); [|reflexivity].
    destruct (Z.eqb_spec (crop_top c) 0); [|reflexivity].
    destruct (Z.eqb_spec (crop_bottom c) 0); [|reflexivity].
    lia. }
  rewrite Hn. intros Ha. apply allocate_buffers in Ha as (_ & Ii & p & Hp & Hm).
  cbv zeta in Ii, Hm.
  assert (Ew : width (imgs (cnt (shrink (transfer_capture wv)))) = wc).
  { change (width (imgs (cnt (shrink (transfer_capture wv)))))
      with (int_sub (int_sub (width (imgs (cnt wv))) (px_left (crop_data (cnt wv))))
              (px_right (crop_data (cnt wv)))).
    rewrite Vi, Pl, Pr. unfold int_sub.
    rewrite (wrap_id (width i - crop_left c)) by (unfold in_int; lia).
    apply wrap_id. unfold in_int. lia. }
  assert (Eh : height (imgs (cnt (shrink (transfer_capture wv)))) = hc).
  { change (height (imgs (cnt (shrink (transfer_capture wv)))))
      with (int_sub (int_sub (height (imgs (cnt wv))) (px_top (crop_data (cnt wv))))
              (px_bottom (crop_data (cnt wv)))).
    rewrite Vi, Pt, Pb. unfold int_sub.
    rewrite (wrap_id (height i - crop_top c)) by (unfold in_int; lia).
    apply wrap_id. unfold in_int. lia. }
  assert (Em : mallocs (shrink (transfer_capture wv)) = mallocs w) by exact Vm.
  rewrite Ew, Eh, Em in Hm. rewrite Ii, Ew, Eh.
  destruct (frame_size_exact wc hc) as [_ Es]; [unfold wc; lia | unfold hc; lia|].
  rewrite Es in Hm.
  repeat apply conj; try reflexivity.
  destruct Hm as [(_ & Hm & _)|(_ & q & Hm & _)]; rewrite Hm.
  - rewrite nth_error_app2 by lia. rewrite Nat.sub_diag. cbn. congruence.
  - rewrite <- app_assoc. rewrite nth_error_app2 by lia.
    rewrite Nat.sub_diag. cbn. congruence.
Qed.

Lemma int_add_0_1 : int_add 0 1 = 1.
Proof. vm_compute. reflexivity. Qed.

(** The pass of the specification's wording does not come back when
    [right < left] and the first halved-width row lies inside the chroma
    plane. *)
Lemma crop_variant_halved_no_return (fuel : nat) (c : context)
    (img_data : image_data) (indx : Z) (m m' : gmap Z byte) :
  let d := crop_data c in
  let v := select_variant c img_data indx in
  let g := precalc (var_width v) (var_height v) (px_left d) (px_right d) in
  px_right d < px_left d ->
  int_mul (w2 g) (px_top d) < wh4 g ->
  crop_variant_halved fuel c img_data indx m <> Done m'.
Proof.
  cbv zeta. intros Hlt Hin. unfold crop_variant_halved. cbv zeta.
  destruct (crop fuel m _ _ _ _ _ _ _ _ _) as [m1| |]; cbn [bind]; try discriminate.
  match goal with
  | |- bind ?o _ <> _ =>
      assert (Ho : forall x, o <> Done x); [|destruct o as [x| |]]
  end.
  - intros x. unfold crop. apply crop_rows_no_return; [exact Hlt|lia].
  - exfalso. exact (Ho x eq_refl).
  - discriminate.
  - discriminate.
Qed.

Lemma bind_assoc {A B C : Type} (o : outcome A) (f : A -> outcome B)
    (k : B -> outcome C) :
  bind (bind o f) k = bind o (fun a => bind (f a) k).
Proof. destruct o; reflexivity. Qed.



(** C7.  When the four effective margins are zero, [crop_map] returns 0
    before entering its loop, whatever the fuel, and hands back the state
    it was given: heap (frame contents), context (reported dimensions),
    log and allocations are the same. *)
Theorem crop_map_identity_without_margins (fuel : nat) (w : world)
    (img_data : image_data) :
  px_left (crop_data (cnt w)) = 0 ->
  px_right (crop_data (cnt w)) = 0 ->
  px_top (crop_data (cnt w)) = 0 ->
  px_bottom (crop_data (cnt w)) = 0 ->
  crop_map fuel w img_data = Done (0, w).
Proof.
  intros Hl Hr Ht Hb. unfold crop_map, no_margins.
  rewrite Hl, Hr, Ht, Hb. reflexivity.
Qed.

Lemma crop_map_identity_without_margins_witness :
  let w := fresh_world (fresh_context 0 0 0 0 4 4 0 0) heap4x4 in
  px_left (crop_data (cnt w)) = 0 /\
  px_right (crop_data (cnt w)) = 0 /\
  px_top (crop_data (cnt w)) = 0 /\
  px_bottom (crop_data (cnt w)) = 0 /\
  crop_map 0 w img_norm_only = Done (0, w).
Proof.
  intros w. do 4 (split; [reflexivity|]).
  apply (crop_map_identity_without_margins 0 w img_norm_only); reflexivity.
Defined.

(** C8, counterexample.  The claim: with all margins zero [crop_init]
    returns without modifying [imgs].  With a 90 degree rotation recorded
    in [rotate_data] (capture size 640x480) and [imgs] still holding
    640x480, [crop_init] with margins (0,0,0,0) allocates nothing and
    returns with [imgs] set to 480x640. *)
Lemma crop_init_no_margins_rotated_swaps_dims :
  let mymalloc := calloc_above 65536 in
  let c0 := {| conf := conf (fresh_context 0 0 0 0 640 480 0 0);
               crop_data := blank_crop_data;
               rotate_data := {| degrees := 90;
                                 rot_capture_width_norm := 640;
                                 rot_capture_height_norm := 480;
                                 rot_capture_width_high := 0;
                                 rot_capture_height_high := 0;
                                 rot_buffer_high := NULL |};
               imgs := imgs (fresh_context 0 0 0 0 640 480 0 0) |} in
  let w := after_init mymalloc (fresh_world c0 ∅) in
  came_back (crop_init mymalloc (fresh_world c0 ∅)) = true /\
  no_margins (crop_data (cnt (validate (fresh_world c0 ∅)))) = true /\
  no_margins (crop_data (cnt w)) = true /\
  mallocs w = [] /\
  (width (imgs c0), height (imgs c0)) = (640, 480) /\
  (width (imgs (cnt w)), height (imgs (cnt w))) = (480, 640) /\
  imgs (cnt w) <> imgs c0.
Proof.
  intros mymalloc c0 w. repeat apply conj; try (vm_compute; reflexivity).
  vm_compute. discriminate.
Qed.

(** C8, as amended.  When the four margins resolve to zero, [crop_init]
    returns with cropping recorded as disabled, both crop buffers NULL,
    nothing allocated, heap and [rotate_data] untouched.  [imgs] is left as
    it was unless the rotation is 90 or 270 degrees; then width and height
    are taken from [rotate_data]'s capture height and width (for the High
    variant only when its size is positive), which changes nothing exactly
    when [imgs] already holds these values. *)
Theorem crop_init_no_margins (mymalloc : gmap Z byte -> Z -> option (Z * gmap Z byte))
    (w : world) :
  no_margins (crop_data (cnt (validate w))) = true ->
  let r := rotate_data (cnt w) in
  let i := imgs (cnt w) in
  let s := frame_size (width_high i) (height_high i) in
  exists w',
    crop_init mymalloc w = Some w' /\
    no_margins (crop_data (cnt w')) = true /\
    buffer_norm (crop_data (cnt w')) = NULL /\
    buffer_high (crop_data (cnt w')) = NULL /\
    mallocs w' = mallocs w /\
    heap w' = heap w /\
    rotate_data (cnt w') = r /\
    imgs (cnt w')
    = if (degrees r =? 90) || (degrees r =? 270) then
        {| width := rot_capture_height_norm r;
           height := rot_capture_width_norm r;
           width_high := if s >? 0 then rot_capture_height_high r else width_high i;
           height_high := if s >? 0 then rot_capture_width_high r else height_high i |}
      else i.
Proof.
  intros Hz r i s.
  pose proof (validate_frame w) as (Vi & Vr & Vh & Vm & Vn & Vb).
  unfold crop_init. cbv zeta.
  fold r i in Vi, Vr.
  revert Hz Vi Vr Vh Vm Vn Vb. generalize (validate w) as wv.
  intros wv Hz Vi Vr Vh Vm Vn Vb.
  replace (frame_size (width_high (imgs (cnt (transfer_capture wv))))
             (height_high (imgs (cnt (transfer_capture wv))))) with s
    by (unfold s; rewrite <- Vi; reflexivity).
  pose proof (capture_keeps_margins s wv) as Km.
  pose proof (capture_keeps_buffers s wv) as [Kn Kb].
  pose proof (capture_frame s wv) as (_ & Kr & Kh & Ka & _ & _).
  pose proof (swap_if_rotated_imgs s (transfer_capture wv)) as Ki.
  cbv zeta in Ki, Kn, Kb, Kr, Kh, Ka.
  change (rotate_data (cnt (transfer_capture wv))) with (rotate_data (cnt wv)) in Ki.
  change (imgs (cnt (transfer_capture wv))) with (imgs (cnt wv)) in Ki.
  rewrite Vi, Vr in Ki.
  revert Km Kn Kb Kr Kh Ka Ki.
  generalize (swap_if_rotated s (transfer_capture wv)) as w2.
  intros w2 Km Kn Kb Kr Kh Ka Ki.
  rewrite Km, Hz. exists w2.
  repeat apply conj; congruence.
Qed.

Lemma crop_init_no_margins_witness :
  let mymalloc := calloc_above 65536 in
  let w := fresh_world (fresh_context 0 0 0 0 100 80 0 0) ∅ in
  no_margins (crop_data (cnt (validate w))) = true /\
  exists w',
    crop_init mymalloc w = Some w' /\
    no_margins (crop_data (cnt w')) = true /\
    buffer_norm (crop_data (cnt w')) = NULL /\
    buffer_high (crop_data (cnt w')) = NULL /\
    mallocs w' = mallocs w /\
    heap w' = heap w /\
    rotate_data (cnt w') = rotate_data (cnt w) /\
    imgs (cnt w') = imgs (cnt w).
Proof.
  intros mymalloc w. split; [reflexivity|].
  apply (crop_init_no_margins mymalloc w). reflexivity.
Defined.

(** C9.  After [crop_init], the margins in [crop_data] are the configured
    ones (when none is negative), and [crop_map] reads none of
    [conf]: replacing the configuration by any other leaves the returned
    value and the resulting state, frame contents included, the same. *)
Theorem crop_map_uses_frozen_margins
    (mymalloc : gmap Z byte -> Z -> option (Z * gmap Z byte)) (w0 w : world) :
  crop_init mymalloc w0 = Some w ->
  let c0 := conf (cnt w0) in
  (0 <= crop_left c0 -> 0 <= crop_right c0 -> 0 <= crop_top c0 -> 0 <= crop_bottom c0 ->
   margins_of (crop_data (cnt w))
   = (crop_left c0, crop_right c0, crop_top c0, crop_bottom c0)) /\
  forall (c' : config) (fuel : nat) (img_data : image_data),
    crop_map fuel (upd_conf (fun _ => c') w) img_data
    = outcome_map (fun rw => (fst rw, upd_conf (fun _ => c') (snd rw)))
        (crop_map fuel w img_data) /\
    forall a n,
      result_and_bytes a n (crop_map fuel (upd_conf (fun _ => c') w) img_data)
      = result_and_bytes a n (crop_map fuel w img_data).
Proof.
  intros Hi c0. split.
  - intros Hl Hr Ht Hb.
    apply crop_init_margins in Hi as [_ Hm]. rewrite Hm.
    pose proof (validate_copies w0 Hl Hr Ht Hb) as (_ & El & Er & Et & Eb).
    cbv zeta in El, Er, Et, Eb. unfold margins_of. fold c0 in El, Er, Et, Eb.
    rewrite El, Er, Et, Eb. reflexivity.
  - intros c' fuel img_data.
    assert (E : crop_map fuel (upd_conf (fun _ => c') w) img_data
                = outcome_map (fun rw => (fst rw, upd_conf (fun _ => c') (snd rw)))
                    (crop_map fuel w img_data)).
    { unfold crop_map.
      change (crop_data (cnt (upd_conf (fun _ => c') w))) with (crop_data (cnt w)).
      change (heap (upd_conf (fun _ => c') w)) with (heap w).
      destruct (no_margins (crop_data (cnt w))); [reflexivity|].
      rewrite (crop_map_loop_reads_crop_data (cnt (upd_conf (fun _ => c') w)) (cnt w)
                 img_data _ fuel eq_refl).
      destruct (crop_map_loop fuel (cnt w) img_data 0 _ (heap w)); reflexivity. }
    split; [exact E|].
    intros a n. rewrite E. unfold result_and_bytes.
    destruct (crop_map fuel w img_data) as [[r w']| |]; reflexivity.
Qed.

Lemma crop_map_uses_frozen_margins_witness :
  let mymalloc := calloc_above 65536 in
  let w0 := fresh_world (fresh_context 1 1 1 1 4 4 0 0) heap4x4 in
  let w := after_init mymalloc w0 in
  let c' := {| crop_left := 0; crop_right := 3; crop_top := 2; crop_bottom := 0 |} in
  crop_init mymalloc w0 = Some w /\
  margins_of (crop_data (cnt w)) = (1, 1, 1, 1) /\
  result_and_bytes frame_at 24 (crop_map 64 (upd_conf (fun _ => c') w) img_norm_only)
  = result_and_bytes frame_at 24 (crop_map 64 w img_norm_only).
Proof.
  intros mymalloc w0 w c'.
  assert (Hi : crop_init mymalloc w0 = Some w)
    by (apply after_init_came_back; vm_compute; reflexivity).
  split; [exact Hi|].
  destruct (crop_map_uses_frozen_margins mymalloc w0 w Hi) as [Hm Hc].
  split.
  - apply Hm; vm_compute; discriminate.
  - apply (proj2 (Hc c' 64%nat img_norm_only)).
Defined.

(** C10.  In every state that [crop_init] returns, [crop_data.buffer_high]
    is NULL, so the destination that [crop_map] selects for the High
    variant ([indx = 1]) is NULL.  Whatever [crop_init] obtained from
    [mymalloc] went to [crop_data.buffer_norm] (first block) and to
    [rotate_data.buffer_high] (second block). *)
Theorem crop_init_buffer_high_null
    (mymalloc : gmap Z byte -> Z -> option (Z * gmap Z byte)) (w w' : world)
    (img_data : image_data) :
  crop_init mymalloc w = Some w' ->
  buffer_high (crop_data (cnt w')) = NULL /\
  temp_buff (select_variant (cnt w') img_data 1) = NULL /\
  (mallocs w' = mallocs w \/
   (exists p n,
       mallocs w' = mallocs w ++ [(p, n)] /\
       buffer_norm (crop_data (cnt w')) = p) \/
   (exists p n q k,
       mallocs w' = mallocs w ++ [(p, n); (q, k)] /\
       buffer_norm (crop_data (cnt w')) = p /\
       rot_buffer_high (rotate_data (cnt w')) = q)).
Proof.
  intros Hi.
  assert (H : buffer_high (crop_data (cnt w')) = NULL /\
              (mallocs w' = mallocs w \/
               (exists p n,
                   mallocs w' = mallocs w ++ [(p, n)] /\
                   buffer_norm (crop_data (cnt w')) = p) \/
               (exists p n q k,
                   mallocs w' = mallocs w ++ [(p, n); (q, k)] /\
                   buffer_norm (crop_data (cnt w')) = p /\
                   rot_buffer_high (rotate_data (cnt w')) = q))).
  { revert Hi. unfold crop_init. cbv zeta.
    pose proof (validate_frame w) as (_ & _ & _ & Vm & _ & Vb).
    revert Vm Vb. generalize (validate w) as wv. intros wv Vm Vb.
    set (s := frame_size _ _).
    pose proof (capture_keeps_buffers s wv) as [_ Kb].
    pose proof (capture_frame s wv) as (_ & _ & _ & Ka & _ & _).
    cbv zeta in Kb, Ka.
    pose proof (shrink_frame (swap_if_rotated s (transfer_capture wv)))
      as (Sd & _ & _ & _ & Sm).
    revert Kb Ka Sd Sm.
    generalize (swap_if_rotated s (transfer_capture wv)) as w2.
    intros w2 Kb Ka Sd Sm.
    destruct (no_margins _).
    - intros [= <-]. split; [congruence|]. left. congruence.
    - intros Ha. apply allocate_buffers in Ha as (Hb & _ & p & Hp & Hm).
      rewrite Sd in Hb. rewrite Sm, Ka, Vm in Hm.
      split; [congruence|]. right.
      destruct Hm as [(_ & Hm & _)|(_ & q & Hm & Hq)].
      + left. eexists p, _. split; [exact Hm|assumption].
      + right. eexists p, _, q, _. rewrite <- app_assoc in Hm.
        repeat apply conj; [exact Hm|assumption|assumption]. }
  destruct H as [Hb Hm]. repeat apply conj; [exact Hb| |exact Hm].
  unfold select_variant. cbn. exact Hb.
Qed.

Lemma crop_init_buffer_high_null_witness :
  let mymalloc := calloc_above 65536 in
  let w := fresh_world (fresh_context 1 1 1 1 4 4 8 8) ∅ in
  let w' := after_init mymalloc w in
  crop_init mymalloc w = Some w' /\
  high_present (crop_data (cnt w')) = true /\
  buffer_high (crop_data (cnt w')) = NULL /\
  temp_buff (select_variant (cnt w') img_norm_only 1) = NULL.
Proof.
  intros mymalloc w w'.
  assert (Hi : crop_init mymalloc w = Some w')
    by (apply after_init_came_back; vm_compute; reflexivity).
  split; [exact Hi|]. split; [vm_compute; reflexivity|].
  destruct (crop_init_buffer_high_null mymalloc w w' img_norm_only Hi) as (Hb & Ht & _).
  split; assumption.
Defined.

(** * Further properties of [crop] *)

Lemma returned_value {A : Type} (o : outcome A) (default : A) :
  returned o = true -> o = Done (outcome_value o default).
Proof. destruct o; [reflexivity|discriminate|discriminate]. Qed.

(** X1.  Whenever [crop] returns it has left memory as it found it, and
    either the walk never started (the first row lies at or beyond the end
    of the plane) or [left <= right] and [0 < left + right]. *)
Theorem crop_returns_only_unchanged (fuel : nat) (m m' : gmap Z byte)
    (src dst size_src size_dst width_src left right top bottom : Z) :
  crop fuel m src dst size_src size_dst width_src left right top bottom = Done m' ->
  m' = m /\
  (size_src <= int_mul width_src top \/ (left <= right /\ 0 < left + right)).
Proof.
  unfold crop. intros H. split; [exact (crop_rows_pure _ _ _ _ _ _ _ _ H)|].
  destruct (Z_le_gt_dec size_src (int_mul width_src top)) as [Hs|Hs]; [left; exact Hs|].
  right. destruct (Z_le_gt_dec left right) as [Hle|Hgt].
  - split; [exact Hle|].
    destruct (Z_lt_le_dec 0 (left + right)) as [Hp|Hp]; [exact Hp|].
    rewrite (crop_rows_stuck left right _ fuel Hle Hp) in H by lia. discriminate.
  - exfalso.
    apply (crop_rows_no_return left right (src + size_src) fuel ltac:(lia) m
             (src + int_mul width_src top) dst m'); [lia|exact H].
Qed.

Lemma crop_returns_only_unchanged_witness :
  crop 16 ∅ 0 64 16 4 4 1 1 1 1 = Done ∅ /\
  (∅ : gmap Z byte) = ∅ /\
  (16 <= int_mul 4 1 \/ (1 <= 1 /\ 0 < 1 + 1)).
Proof.
  split; [vm_compute; reflexivity|].
  apply (crop_returns_only_unchanged 16 ∅ ∅ 0 64 16 4 4 1 1 1 1).
  vm_compute; reflexivity.
Defined.

(** X2.  With [left <= right] and [0 < left + right], [crop] returns, with
    memory unchanged, for every amount of fuel above the distance from the
    first row to the end of the plane. *)
Theorem crop_returns_with_fuel (fuel : nat) (m : gmap Z byte)
    (src dst size_src size_dst width_src left right top bottom : Z) :
  left <= right ->
  0 < left + right ->
  (Z.to_nat (size_src - int_mul width_src top) + 2 <= fuel)%nat ->
  crop fuel m src dst size_src size_dst width_src left right top bottom = Done m.
Proof.
  intros Hle Hpos Hf. unfold crop.
  apply (crop_rows_returns left right (src + size_src) Hle Hpos
           (Z.to_nat (size_src - int_mul width_src top))); [|exact Hf].
  destruct (Z_le_gt_dec (size_src - int_mul width_src top) 0) as [Hn|Hn].
  - rewrite Z2Nat.nonpos by lia. lia.
  - rewrite Z2Nat.id by lia. nia.
Qed.

Lemma crop_returns_with_fuel_witness :
  1 <= 1 /\ 0 < 1 + 1 /\
  (Z.to_nat (16 - int_mul 4 1) + 2 <= 14)%nat /\
  crop 14 ∅ 0 64 16 4 4 1 1 1 1 = Done ∅.
Proof.
  split; [lia|]. split; [lia|]. split; [vm_compute; lia|].
  apply (crop_returns_with_fuel 14 ∅ 0 64 16 4 4 1 1 1 1); [lia|lia|vm_compute; lia].
Defined.

(** A successful [store] maps exactly the addresses that were mapped. *)
Lemma store_keeps_unmapped (m m' : gmap Z byte) (a b : Z) (v : byte) :
  store m a v = Some m' -> m !! b = None -> m' !! b = None.
Proof.
  unfold store. destruct (m !! a) as [x|] eqn:E; [|discriminate].
  intros [= <-] Hb.
  destruct (Z.eq_dec a b) as [->|Hne]; [congruence|].
  rewrite lookup_insert_ne by exact Hne. exact Hb.
Qed.

(** With [right < left] the inner loop walks off the mapped addresses. *)
Lemma crop_row_faults (left right K : Z) :
  right < left ->
  forall (n : nat) (fuel : nat) (m : gmap Z byte) (base dst : Z),
    (forall a, K < a -> m !! a = None) ->
    K + 1 - base <= Z.of_nat n ->
    (n + 1 <= fuel)%nat ->
    crop_row fuel m base dst left right = Fault.
Proof.
  intros Hlt. induction n as [|n IH]; intros fuel m base dst HK Hn Hf;
    (destruct fuel as [|f]; [lia|]); cbn [crop_row];
    assert (E : (base <? base + left - right) = true) by (apply Z.ltb_lt; lia);
    rewrite E; unfold load.
  - rewrite (HK base) by lia. reflexivity.
  - destruct (m !! base) as [v|]; cbn [lift bind]; [|reflexivity].
    destruct (store m dst v) as [m1|] eqn:Es; cbn [lift bind]; [|reflexivity].
    apply IH; [|lia|lia].
    intros a Ha. apply (store_keeps_unmapped m m1 dst a v Es). apply HK. exact Ha.
Qed.

(** X3.  With [right < left] and the first row inside the plane, [crop]
    ends in an access outside mapped memory: on a heap with nothing mapped
    above address [K] the run is a [Fault] for every amount of fuel above
    the distance from the first byte read to [K]. *)
Theorem crop_overruns_when_left_exceeds_right (fuel : nat) (m : gmap Z byte) (K : Z)
    (src dst size_src size_dst width_src left right top bottom : Z) :
  right < left ->
  int_mul width_src top < size_src ->
  (forall a, K < a -> m !! a = None) ->
  (Z.to_nat (K + 1 - (src + int_mul width_src top + left)) + 2 <= fuel)%nat ->
  crop fuel m src dst size_src size_dst width_src left right top bottom = Fault.
Proof.
  intros Hlt Hin HK Hf. unfold crop.
  destruct fuel as [|f]; [lia|]. cbn [crop_rows].
  assert (E : (src + int_mul width_src top <? src + size_src) = true)
    by (apply Z.ltb_lt; lia).
  rewrite E.
  rewrite (crop_row_faults left right K Hlt
             (Z.to_nat (K + 1 - (src + int_mul width_src top + left))) f m
             (src + int_mul width_src top + left) dst HK); [reflexivity| |lia].
  destruct (Z_le_gt_dec (K + 1 - (src + int_mul width_src top + left)) 0).
  - rewrite Z2Nat.nonpos by lia. lia.
  - rewrite Z2Nat.id by lia. lia.
Qed.

Lemma crop_overruns_when_left_exceeds_right_witness :
  1 < 2 /\ int_mul 4 1 < 16 /\
  (forall a, 4119 < a -> heap4x4 !! a = None) /\
  (Z.to_nat (4119 + 1 - (frame_at + int_mul 4 1 + 2)) + 2 <= 32)%nat /\
  crop 32 heap4x4 frame_at frame_at 16 4 4 2 1 1 1 = Fault.
Proof.
  assert (HK : forall a, 4119 < a -> heap4x4 !! a = None).
  { intros a Ha. unfold heap4x4, frame4x4, frame_at. cbn [place].
    repeat (rewrite lookup_insert_ne by lia). apply lookup_empty. }
  split; [lia|]. split; [vm_compute; reflexivity|]. split; [exact HK|].
  split; [vm_compute; lia|].
  apply (crop_overruns_when_left_exceeds_right 32 heap4x4 4119
           frame_at frame_at 16 4 4 2 1 1 1);
    [lia | vm_compute; reflexivity | exact HK | vm_compute; lia].
Defined.

(** * Further properties of [crop_map] *)

Lemma crop_rows_returns_from (left right src_endp : Z) (fuel : nat)
    (m : gmap Z byte) (base dst : Z) :
  left <= right -> 0 < left + right ->
  (Z.to_nat (src_endp - base) + 2 <= fuel)%nat ->
  crop_rows fuel m base dst src_endp left right = Done m.
Proof.
  intros Hle Hpos Hf.
  apply (crop_rows_returns left right src_endp Hle Hpos
           (Z.to_nat (src_endp - base))); [|exact Hf].
  destruct (Z_le_gt_dec (src_endp - base) 0).
  - rewrite Z2Nat.nonpos by lia. lia.
  - rewrite Z2Nat.id by lia. nia.
Qed.

Lemma memcpy_bytes_keeps_unmapped (n : nat) :
  forall (m m' : gmap Z byte) (dst src a : Z),
    memcpy_bytes n m dst src = Some m' -> m !! a = None -> m' !! a = None.
Proof.
  induction n as [|k IH]; intros m m' dst src a; cbn [memcpy_bytes].
  - intros [= <-] H. exact H.
  - destruct (load m src) as [v|]; [|discriminate].
    destruct (store m dst v) as [m1|] eqn:Es; [|discriminate].
    intros Hc Ha. apply (IH m1 m' _ _ a Hc).
    exact (store_keeps_unmapped m m1 dst a v Es Ha).
Qed.

(** What [memcpy] leaves at every address, for regions that do not
    overlap. *)
Lemma memcpy_bytes_lookup (n : nat) :
  forall (m m' : gmap Z byte) (dst src : Z),
    dst + Z.of_nat n <= src \/ src + Z.of_nat n <= dst ->
    memcpy_bytes n m dst src = Some m' ->
    forall a,
      m' !! a = if (dst <=? a) && (a <? dst + Z.of_nat n)
                then m !! (src + (a - dst)) else m !! a.
Proof.
  induction n as [|k IH]; intros m m' dst src Hd; cbn [memcpy_bytes].
  - intros [= <-] a.
    destruct (Z.leb_spec dst a); destruct (Z.ltb_spec a (dst + Z.of_nat 0));
      cbn [andb]; try reflexivity; lia.
  - unfold load. destruct (m !! src) as [v|] eqn:Ev; [|discriminate].
    unfold store. destruct (m !! dst) as [x|] eqn:Ex; [|discriminate].
    intros Hc a.
    assert (Hd' : dst + 1 + Z.of_nat k <= src + 1 \/ src + 1 + Z.of_nat k <= dst + 1) by lia.
    rewrite (IH _ _ _ _ Hd' Hc a).
    destruct (Z.leb_spec (dst + 1) a); destruct (Z.ltb_spec a (dst + 1 + Z.of_nat k));
      destruct (Z.leb_spec dst a); destruct (Z.ltb_spec a (dst + Z.of_nat (S k)));
      cbn [andb]; try lia.
    + rewrite lookup_insert_ne by lia. f_equal. lia.
    + rewrite lookup_insert_ne by lia. reflexivity.
    + assert (Ea : a = dst) by lia. subst a.
      rewrite lookup_insert_eq, <- Ev. f_equal. lia.
    + rewrite lookup_insert_ne by lia. reflexivity.
Qed.

Lemma read_bytes_ext (k : nat) :
  forall (m1 m2 : gmap Z byte) (a b : Z),
    (forall j, 0 <= j < Z.of_nat k -> m1 !! (a + j) = m2 !! (b + j)) ->
    read_bytes m1 a k = read_bytes m2 b k.
Proof.
  induction k as [|k IH]; intros m1 m2 a b H; cbn [read_bytes]; [reflexivity|].
  unfold load.
  pose proof (H 0 ltac:(lia)) as H0. rewrite !Z.add_0_r in H0. rewrite H0.
  rewrite (IH m1 m2 (a + 1) (b + 1)); [reflexivity|].
  intros j Hj. rewrite <- !Z.add_assoc. apply H. lia.
Qed.

(** X4.  The only value [crop_map] returns is 0, and a run that returns
    has changed nothing but the heap: context (margins, dimensions, buffer
    pointers), log and allocation record are those it was given. *)
Theorem crop_map_returns_zero_keeps_context (fuel : nat) (w w' : world)
    (img_data : image_data) (r : Z) :
  crop_map fuel w img_data = Done (r, w') ->
  r = 0 /\ cnt w' = cnt w /\ logged w' = logged w /\ mallocs w' = mallocs w.
Proof.
  unfold crop_map. destruct (no_margins _).
  - intros [= <- <-]. repeat apply conj; reflexivity.
  - destruct (crop_map_loop _ _ _ _ _ _) as [m| |]; cbn [bind]; try discriminate.
    intros [= <- <-]. repeat apply conj; reflexivity.
Qed.

Lemma crop_map_returns_zero_keeps_context_witness :
  let w := after_init (calloc_above 65536)
             (fresh_world (fresh_context 1 1 1 1 4 4 0 0) heap4x4) in
  let o := crop_map 64 w img_norm_only in
  o = Done (fst (outcome_value o (7, w)), snd (outcome_value o (7, w))) /\
  fst (outcome_value o (7, w)) = 0 /\
  cnt (snd (outcome_value o (7, w))) = cnt w.
Proof.
  intros w o.
  assert (Ho : o = Done (fst (outcome_value o (7, w)), snd (outcome_value o (7, w)))).
  { rewrite <- surjective_pairing. apply returned_value. vm_compute; reflexivity. }
  split; [exact Ho|].
  destruct (crop_map_returns_zero_keeps_context 64 w _ img_norm_only _ Ho)
    as (Hr & Hc & _).
  split; [exact Hr|exact Hc].
Defined.

(** The effect of a [memcpy] that succeeds, for regions that do not
    overlap. *)
Lemma memcpy_effect (m m' : gmap Z byte) (dst src sz : Z) :
  dst + Z.of_nat (Z.to_nat (to_size_t sz)) <= src \/
  src + Z.of_nat (Z.to_nat (to_size_t sz)) <= dst ->
  memcpy m dst src sz = Done m' ->
  read_bytes m' dst (Z.to_nat (to_size_t sz)) = read_bytes m src (Z.to_nat (to_size_t sz)) /\
  forall a, ~ (dst <= a < dst + Z.of_nat (Z.to_nat (to_size_t sz))) -> m' !! a = m !! a.
Proof.
  unfold memcpy. generalize (Z.to_nat (to_size_t sz)) as n. intros n Hd Hm.
  destruct (memcpy_bytes n m dst src) as [m1|] eqn:E; [|discriminate].
  cbn [lift] in Hm. injection Hm as <-.
  pose proof (memcpy_bytes_lookup n m m1 dst src Hd E) as L.
  split.
  - apply read_bytes_ext. intros j Hj. rewrite L.
    destruct (Z.leb_spec dst (dst + j)); [|lia].
    destruct (Z.ltb_spec (dst + j) (dst + Z.of_nat n)); [|lia].
    cbn [andb]. f_equal. lia.
  - intros a Ha. rewrite L.
    destruct (Z.leb_spec dst a); destruct (Z.ltb_spec a (dst + Z.of_nat n));
      cbn [andb]; try reflexivity. lia.
Qed.

(** X5.  With the High variant absent and frame and staging buffer apart,
    a [crop_map] that returns has put the first [sizec] bytes of the
    staging buffer, as they were before the call, at the start of the
    frame, and has changed no other address. *)
Theorem crop_map_frame_gets_staging_bytes (fuel : nat) (w w' : world)
    (img_data : image_data) (r : Z) :
  let d := crop_data (cnt w) in
  let g := precalc (capture_width_norm d) (capture_height_norm d)
             (px_left d) (px_right d) in
  let n := Z.to_nat (to_size_t (sizec g)) in
  let frame := image_norm img_data in
  let staging := buffer_norm d in
  no_margins d = false ->
  high_present d = false ->
  frame + Z.of_nat n <= staging \/ staging + Z.of_nat n <= frame ->
  crop_map fuel w img_data = Done (r, w') ->
  read_bytes (heap w') frame n = read_bytes (heap w) staging n /\
  forall a, ~ (frame <= a < frame + Z.of_nat n) -> heap w' !! a = heap w !! a.
Proof.
  cbv zeta. intros Hn Hh Hd Hc.
  apply crop_map_is_memcpy in Hc as (_ & _ & Hm); [|exact Hn|exact Hh].
  cbv zeta in Hm.
  exact (memcpy_effect _ _ _ _ _ Hd Hm).
Qed.

Lemma crop_map_frame_gets_staging_bytes_witness :
  let w := after_init (calloc_above 65536)
             (fresh_world (fresh_context 1 1 1 1 4 4 0 0) heap4x4) in
  let o := crop_map 64 w img_norm_only in
  let w' := snd (outcome_value o (7, w)) in
  let staging := buffer_norm (crop_data (cnt w)) in
  o = Done (fst (outcome_value o (7, w)), w') /\
  read_bytes (heap w') frame_at 6 = read_bytes (heap w) staging 6.
Proof.
  intros w o w' staging.
  assert (Ho : o = Done (fst (outcome_value o (7, w)), w')).
  { unfold w'. rewrite <- surjective_pairing. apply returned_value.
    vm_compute; reflexivity. }
  split; [exact Ho|].
  refine (proj1 (crop_map_frame_gets_staging_bytes 64 w w' img_norm_only _ _ _ _ Ho)).
  - vm_compute; reflexivity.
  - vm_compute; reflexivity.
  - left. vm_compute. discriminate.
Defined.

(** X6.  With the High variant absent, margins with [left <= right] and
    [0 < left + right], and a final [memcpy] that finds frame and staging
    buffer mapped, [crop_map] returns 0 for every amount of fuel above the
    plane size, and the heap it leaves is that of the [memcpy] alone. *)
Theorem crop_map_returns_with_fuel (fuel : nat) (w : world)
    (img_data : image_data) (m' : gmap Z byte) :
  let d := crop_data (cnt w) in
  let g := precalc (capture_width_norm d) (capture_height_norm d)
             (px_left d) (px_right d) in
  no_margins d = false ->
  high_present d = false ->
  px_left d <= px_right d ->
  0 < px_left d + px_right d ->
  memcpy (heap w) (image_norm img_data) (buffer_norm d) (sizec g) = Done m' ->
  (Z.to_nat (Z.max (wh g) (wh4 g) - int_mul (capture_width_norm d) (px_top d)) + 4
   <= fuel)%nat ->
  crop_map fuel w img_data = Done (0, with_heap m' w).
Proof.
  cbv zeta. intros Hn Hh Hle Hpos Hm Hf.
  unfold crop_map. rewrite Hn, Hh.
  destruct fuel as [|f]; [lia|]. cbn [crop_map_loop].
  change (0 <=? 0) with true. cbv iota.
  assert (Ev : crop_variant f (cnt w) img_data 0 (heap w) = Done m').
  { unfold crop_variant, run_crop, crop.
    change (select_variant (cnt w) img_data 0) with
      {| img := image_norm img_data;
         var_width := capture_width_norm (crop_data (cnt w));
         var_height := capture_height_norm (crop_data (cnt w));
         temp_buff := buffer_norm (crop_data (cnt w)) |}.
    cbn [luma_call chroma_u_call chroma_v_call arg_src arg_dst arg_size_src
         arg_width_src arg_left arg_right arg_top img var_width var_height temp_buff].
    revert Hm Hf.
    generalize (precalc (capture_width_norm (crop_data (cnt w)))
                  (capture_height_norm (crop_data (cnt w)))
                  (px_left (crop_data (cnt w))) (px_right (crop_data (cnt w)))) as g.
    generalize (int_mul (capture_width_norm (crop_data (cnt w)))
                  (px_top (crop_data (cnt w)))) as start.
    intros start g Hm Hf.
    rewrite crop_rows_returns_from by (try assumption; lia). cbn [bind].
    rewrite crop_rows_returns_from by (try assumption; lia). cbn [bind].
    rewrite crop_rows_returns_from by (try assumption; lia). cbn [bind].
    exact Hm. }
  rewrite Ev. cbn [bind].
  destruct f as [|f']; [lia|]. cbn [crop_map_loop].
  change (int_add 0 1 <=? 0) with false. reflexivity.
Qed.

Lemma crop_map_returns_with_fuel_witness :
  let w := after_init (calloc_above 65536)
             (fresh_world (fresh_context 1 1 1 1 4 4 0 0) heap4x4) in
  let d := crop_data (cnt w) in
  let g := precalc (capture_width_norm d) (capture_height_norm d)
             (px_left d) (px_right d) in
  let o := memcpy (heap w) frame_at (buffer_norm d) (sizec g) in
  o = Done (outcome_value o ∅) /\
  crop_map 20 w img_norm_only = Done (0, with_heap (outcome_value o ∅) w).
Proof.
  intros w d g o.
  assert (Ho : o = Done (outcome_value o ∅))
    by (apply returned_value; vm_compute; reflexivity).
  split; [exact Ho|].
  apply (crop_map_returns_with_fuel 20 w img_norm_only (outcome_value o ∅)).
  - vm_compute; reflexivity.
  - vm_compute; reflexivity.
  - vm_compute; discriminate.
  - vm_compute; reflexivity.
  - exact Ho.
  - vm_compute. lia.
Defined.

Lemma to_size_t_nonneg (z : Z) : 0 <= to_size_t z.
Proof. unfold to_size_t. apply Z.mod_pos_bound. lia. Qed.

(** [crop_init] leaves [crop_data.buffer_high] NULL. *)
Lemma crop_init_clears_buffer_high
    (mymalloc : gmap Z byte -> Z -> option (Z * gmap Z byte)) (w w' : world) :
  crop_init mymalloc w = Some w' ->
  buffer_high (crop_data (cnt w')) = NULL.
Proof.
  unfold crop_init. cbv zeta.
  pose proof (validate_frame w) as (_ & _ & _ & _ & _ & Vb).
  revert Vb. generalize (validate w) as wv. intros wv Vb.
  set (s := frame_size _ _).
  pose proof (capture_keeps_buffers s wv) as [_ Kb]. cbv zeta in Kb.
  pose proof (shrink_frame (swap_if_rotated s (transfer_capture wv))) as (Sd & _).
  revert Kb Sd. generalize (swap_if_rotated s (transfer_capture wv)) as w2.
  intros w2 Kb Sd.
  destruct (no_margins _).
  - intros [= <-]. congruence.
  - intros Ha. apply allocate_buffers in Ha as (Hb & _). rewrite Sd in Hb. congruence.
Qed.

(** The second pass of the loop amounts to a [memcpy] from
    [crop_data.buffer_high]. *)
Lemma crop_variant_high_is_memcpy (fuel : nat) (c : context) (img_data : image_data)
    (m m' : gmap Z byte) :
  crop_variant fuel c img_data 1 m = Done m' ->
  let d := crop_data c in
  let g := precalc (capture_width_high d) (capture_height_high d)
             (px_left d) (px_right d) in
  memcpy m (image_high img_data) (buffer_high d) (sizec g) = Done m'.
Proof.
  intros H. apply crop_variant_is_memcpy in H. exact H.
Qed.

(** A [memcpy] of at least one byte from an unmapped address faults. *)
Lemma memcpy_from_unmapped (m : gmap Z byte) (dst src n : Z) :
  m !! src = None -> to_size_t n <> 0 -> memcpy m dst src n = Fault.
Proof.
  intros Hs Hn. unfold memcpy.
  pose proof (to_size_t_nonneg n) as Hnn.
  destruct (Z.to_nat (to_size_t n)) as [|k] eqn:E; [lia|].
  cbn [memcpy_bytes]. unfold load. rewrite Hs. reflexivity.
Qed.

Lemma memcpy_keeps_unmapped (m m' : gmap Z byte) (dst src n a : Z) :
  memcpy m dst src n = Done m' -> m !! a = None -> m' !! a = None.
Proof.
  unfold memcpy. generalize (Z.to_nat (to_size_t n)) as k. intros k H Ha.
  destruct (memcpy_bytes k m dst src) as [m1|] eqn:Ec; [|discriminate].
  cbn [lift] in H. injection H as <-.
  exact (memcpy_bytes_keeps_unmapped _ _ _ _ _ a Ec Ha).
Qed.

(** A pass that comes back maps no new address. *)
Lemma crop_variant_keeps_unmapped (fuel : nat) (c : context) (img_data : image_data)
    (indx : Z) (m m' : gmap Z byte) (a : Z) :
  crop_variant fuel c img_data indx m = Done m' -> m !! a = None -> m' !! a = None.
Proof.
  intros H Ha. apply crop_variant_is_memcpy in H.
  exact (memcpy_keeps_unmapped _ _ _ _ _ a H Ha).
Qed.

(** The second pass cannot come back when [crop_data.buffer_high] is NULL,
    address 0 is unmapped and the cropped High frame is not empty. *)
Lemma crop_variant_high_null (fuel : nat) (c : context) (img_data : image_data)
    (m m' : gmap Z byte) :
  let d := crop_data c in
  let g := precalc (capture_width_high d) (capture_height_high d)
             (px_left d) (px_right d) in
  buffer_high d = NULL ->
  m !! NULL = None ->
  to_size_t (sizec g) <> 0 ->
  crop_variant fuel c img_data 1 m <> Done m'.
Proof.
  cbv zeta. intros Hb H0 Hs H.
  apply crop_variant_high_is_memcpy in H. cbv zeta in H.
  rewrite Hb in H.
  rewrite (memcpy_from_unmapped m _ NULL _ H0 Hs) in H. discriminate.
Qed.

(** X7.  After [crop_init], with margins set, the High variant present
    and a non-empty cropped High frame, [crop_map] never returns: the
    second pass copies from [crop_data.buffer_high], which is NULL, and
    address 0 is not mapped. *)
Theorem crop_map_high_variant_never_returns
    (mymalloc : gmap Z byte -> Z -> option (Z * gmap Z byte)) (w0 w : world)
    (img_data : image_data) (fuel : nat) :
  let d := crop_data (cnt w) in
  let g := precalc (capture_width_high d) (capture_height_high d)
             (px_left d) (px_right d) in
  crop_init mymalloc w0 = Some w ->
  no_margins d = false ->
  high_present d = true ->
  heap w !! NULL = None ->
  to_size_t (sizec g) <> 0 ->
  forall r, crop_map fuel w img_data <> Done r.
Proof.
  cbv zeta. intros Hi Hn Hh H0 Hs r.
  apply crop_init_clears_buffer_high in Hi.
  unfold crop_map. rewrite Hn, Hh.
  destruct fuel as [|f]; [discriminate|]. cbn [crop_map_loop].
  change (0 <=? 1) with true. cbv iota.
  destruct (crop_variant f (cnt w) img_data 0 (heap w)) as [m1| |] eqn:E1;
    cbn [bind]; try discriminate.
  pose proof (crop_variant_keeps_unmapped _ _ _ _ _ _ NULL E1 H0) as H1.
  destruct f as [|f']; [discriminate|]. cbn [crop_map_loop].
  rewrite int_add_0_1. change (1 <=? 1) with true. cbv iota.
  pose proof (crop_variant_high_null f' (cnt w) img_data m1) as Hv.
  cbv zeta in Hv.
  destruct (crop_variant f' (cnt w) img_data 1 m1) as [m2| |];
    cbn [bind]; try discriminate.
  exfalso. exact (Hv m2 Hi H1 Hs eq_refl).
Qed.

Lemma crop_map_high_variant_never_returns_witness :
  let mymalloc := calloc_above 65536 in
  let w0 := fresh_world (fresh_context 1 1 1 1 4 4 8 8) heap_two_frames in
  let w := after_init mymalloc w0 in
  crop_init mymalloc w0 = Some w /\
  high_present (crop_data (cnt w)) = true /\
  returned (crop_variant 64 (cnt w) img_two_frames 0 (heap w)) = true /\
  read_bytes (heap w) frame_high_at 96 = Some frame8x8 /\
  forall r, crop_map 64 w img_two_frames <> Done r.
Proof.
  intros mymalloc w0 w.
  assert (Hi : crop_init mymalloc w0 = Some w)
    by (apply after_init_came_back; vm_compute; reflexivity).
  split; [exact Hi|]. split; [vm_compute; reflexivity|].
  split; [vm_compute; reflexivity|]. split; [vm_compute; reflexivity|].
  apply (crop_map_high_variant_never_returns mymalloc w0 w img_two_frames 64 Hi).
  - vm_compute; reflexivity.
  - vm_compute; reflexivity.
  - vm_compute; reflexivity.
  - vm_compute; discriminate.
Defined.

(** * Further properties of [crop_init] *)

(** Lines 80-120 on any configuration: what they leave in [conf], in the
    four margins and in the log. *)
Lemma checks_effect (w : world) :
  let c := conf (cnt w) in
  let d := crop_data (cnt w) in
  let w4 := check_bottom (check_top (check_right (check_left w))) in
  conf (cnt w4) = clamp_conf c /\
  margins_of (crop_data (cnt w4))
  = (if crop_right c <? 0 then 0 else Z.max 0 (crop_left c),
     if crop_right c <? 0 then px_right d else crop_right c,
     Z.max 0 (crop_top c), Z.max 0 (crop_bottom c)) /\
  logged w4
  = logged w ++
    warn_if (crop_left c <? 0) (NotPositive EdgeLeft (crop_left c)) ++
    warn_if (crop_right c <? 0) (NotPositive EdgeRight (crop_right c)) ++
    warn_if (crop_top c <? 0) (NotPositive EdgeTop (crop_top c)) ++
    warn_if (crop_bottom c <? 0) (NotPositive EdgeBottom (crop_bottom c)) /\
  imgs (cnt w4) = imgs (cnt w) /\
  capture_of (crop_data (cnt w4)) = capture_of d.
Proof.
  destruct w as [[[l r t b] d rd im] hp lg ml].
  unfold check_bottom, check_top, check_right, check_left, clamp_conf, margins_of,
    capture_of, warn_if.
  cbn -[Z.ltb Z.max].
  destruct (Z.ltb_spec l 0); cbn -[Z.ltb Z.max];
    destruct (Z.ltb_spec r 0); cbn -[Z.ltb Z.max];
    destruct (Z.ltb_spec t 0); cbn -[Z.ltb Z.max];
    destruct (Z.ltb_spec b 0); cbn -[Z.ltb Z.max];
    rewrite ?(Z.max_l 0 l), ?(Z.max_r 0 l), ?(Z.max_l 0 r), ?(Z.max_r 0 r),
      ?(Z.max_l 0 t), ?(Z.max_r 0 t), ?(Z.max_l 0 b), ?(Z.max_r 0 b) by lia;
    rewrite <- ?app_assoc; cbn [app]; rewrite ?app_nil_r;
    repeat apply conj; reflexivity.
Qed.

Lemma check_width_effect (w : world) :
  let c := conf (cnt w) in
  let i := imgs (cnt w) in
  cnt (check_width w) = cnt w /\
  logged (check_width w)
  = logged w ++ warn_if (int_add (crop_left c) (crop_right c) >? width i)
                  (WiderThanImage (crop_left c) (crop_right c) (width i)).
Proof.
  unfold check_width, warn_if. cbv zeta.
  destruct (_ >? _); cbn [motion_log cnt logged]; [split; reflexivity|].
  rewrite app_nil_r. split; reflexivity.
Qed.

Lemma check_height_effect (w : world) :
  let c := conf (cnt w) in
  let i := imgs (cnt w) in
  cnt (check_height w) = cnt w /\
  logged (check_height w)
  = logged w ++ warn_if (int_add (crop_top c) (crop_bottom c) >? height i)
                  (TallerThanImage (crop_top c) (crop_bottom c) (height i)).
Proof.
  unfold check_height, warn_if. cbv zeta.
  destruct (_ >? _); cbn [motion_log cnt logged]; [split; reflexivity|].
  rewrite app_nil_r. split; reflexivity.
Qed.

(** Lines 73-132 as a whole. *)
Lemma validate_effect (w : world) :
  let c := conf (cnt w) in
  let d := crop_data (cnt w) in
  conf (cnt (validate w)) = clamp_conf c /\
  margins_of (crop_data (cnt (validate w)))
  = (if crop_right c <? 0 then 0 else Z.max 0 (crop_left c),
     if crop_right c <? 0 then px_right d else crop_right c,
     Z.max 0 (crop_top c), Z.max 0 (crop_bottom c)) /\
  logged (validate w) = logged w ++ validation_warnings c (imgs (cnt w)) /\
  capture_of (crop_data (cnt (validate w))) = capture_of d.
Proof.
  intros c d. unfold validate.
  pose proof (checks_effect (clear_buffers w)) as (C4 & M4 & L4 & I4 & P4).
  cbv zeta in C4, M4, L4, I4, P4.
  change (conf (cnt (clear_buffers w))) with c in C4, M4, L4.
  change (px_right (crop_data (cnt (clear_buffers w)))) with (px_right d) in M4.
  change (logged (clear_buffers w)) with (logged w) in L4.
  change (imgs (cnt (clear_buffers w))) with (imgs (cnt w)) in I4.
  change (capture_of (crop_data (cnt (clear_buffers w)))) with (capture_of d) in P4.
  revert C4 M4 L4 I4 P4.
  generalize (check_bottom (check_top (check_right (check_left (clear_buffers w))))) as w4.
  intros w4 C4 M4 L4 I4 P4.
  pose proof (check_width_effect w4) as [Cw Lw]. cbv zeta in Cw, Lw.
  rewrite C4, I4, L4 in Lw.
  revert Cw Lw. generalize (check_width w4) as w5. intros w5 Cw Lw.
  pose proof (check_height_effect w5) as [Ch Lh]. cbv zeta in Ch, Lh.
  rewrite Cw, C4, I4, Lw in Lh.
  rewrite Ch, Cw, C4, M4, P4, Lh.
  repeat apply conj; try reflexivity.
  unfold validation_warnings. cbv zeta. rewrite <- !app_assoc. reflexivity.
Qed.

(** Lines 146-200 add nothing to the log and leave the capture dimensions
    that lines 146-150 stored. *)
Lemma allocate_keeps (mymalloc : gmap Z byte -> Z -> option (Z * gmap Z byte))
    (w w' : world) :
  allocate mymalloc w = Some w' ->
  logged w' = logged w /\
  capture_of (crop_data (cnt w')) = capture_of (crop_data (cnt w)).
Proof.
  unfold allocate, call_mymalloc. cbn.
  destruct (mymalloc (heap w) _) as [[p m1]|]; [|discriminate]. cbn.
  destruct (_ >? 0).
  - destruct (mymalloc m1 _) as [[q m2]|]; [|discriminate].
    intros [= <-]. split; reflexivity.
  - intros [= <-]. split; reflexivity.
Qed.

Lemma swap_if_rotated_keeps (s : Z) (w : world) :
  crop_data (cnt (swap_if_rotated s w)) = crop_data (cnt w) /\
  logged (swap_if_rotated s w) = logged w.
Proof. unfold swap_if_rotated. case_ifs; split; reflexivity. Qed.

Lemma crop_init_log_and_capture
    (mymalloc : gmap Z byte -> Z -> option (Z * gmap Z byte)) (w w' : world) :
  crop_init mymalloc w = Some w' ->
  logged w' = logged (validate w) /\
  capture_of (crop_data (cnt w'))
  = (width (imgs (cnt w)), height (imgs (cnt w)),
     width_high (imgs (cnt w)), height_high (imgs (cnt w))).
Proof.
  unfold crop_init. cbv zeta.
  pose proof (validate_frame w) as (Vi & _).
  revert Vi. generalize (validate w) as wv. intros wv Vi.
  set (s := frame_size _ _).
  pose proof (swap_if_rotated_keeps s (transfer_capture wv)) as [Kd Kl].
  assert (Kc : capture_of (crop_data (cnt (transfer_capture wv)))
               = (width (imgs (cnt w)), height (imgs (cnt w)),
                  width_high (imgs (cnt w)), height_high (imgs (cnt w)))).
  { rewrite <- Vi. reflexivity. }
  rewrite <- Kd in Kc.
  change (logged (transfer_capture wv)) with (logged wv) in Kl.
  pose proof (shrink_frame (swap_if_rotated s (transfer_capture wv))) as (Sd & _).
  assert (Sl : logged (shrink (swap_if_rotated s (transfer_capture wv)))
               = logged (swap_if_rotated s (transfer_capture wv))) by reflexivity.
  revert Kc Kl Sd Sl. clear Kd.
  generalize (swap_if_rotated s (transfer_capture wv)) as w2.
  intros w2 Kc Kl Sd Sl.
  destruct (no_margins _).
  - intros [= <-]. split; assumption.
  - intros Ha. apply allocate_keeps in Ha as [Hl Hc].
    rewrite Sd in Hc. split; congruence.
Qed.

(** X8.  Whatever the configured margins, a [crop_init] that returns
    leaves [conf] with every negative margin replaced by 0 and every other
    margin as configured. *)
Theorem crop_init_clamps_configuration
    (mymalloc : gmap Z byte -> Z -> option (Z * gmap Z byte)) (w w' : world) :
  crop_init mymalloc w = Some w' ->
  conf (cnt w') = clamp_conf (conf (cnt w)).
Proof.
  intros Hi. apply crop_init_margins in Hi as [Hc _].
  rewrite Hc. exact (proj1 (validate_effect w)).
Qed.

Lemma crop_init_clamps_configuration_witness :
  let mymalloc := calloc_above 65536 in
  let w := fresh_world (fresh_context (-3) 2 (-1) 4 100 80 0 0) ∅ in
  crop_init mymalloc w = Some (after_init mymalloc w) /\
  conf (cnt (after_init mymalloc w))
  = {| crop_left := 0; crop_right := 2; crop_top := 0; crop_bottom := 4 |}.
Proof.
  intros mymalloc w.
  assert (Hi : crop_init mymalloc w = Some (after_init mymalloc w))
    by (apply after_init_came_back; vm_compute; reflexivity).
  split; [exact Hi|].
  exact (crop_init_clamps_configuration mymalloc w _ Hi).
Defined.

(** X9.  When the configured right margin is not negative, the effective
    margins after [crop_init] are the configured ones with negative values
    replaced by 0; none of them is negative. *)
Theorem crop_init_effective_margins
    (mymalloc : gmap Z byte -> Z -> option (Z * gmap Z byte)) (w w' : world) :
  let c := conf (cnt w) in
  let d := crop_data (cnt w') in
  crop_init mymalloc w = Some w' ->
  0 <= crop_right c ->
  margins_of d
  = (Z.max 0 (crop_left c), crop_right c, Z.max 0 (crop_top c), Z.max 0 (crop_bottom c)) /\
  0 <= px_left d /\ 0 <= px_right d /\ 0 <= px_top d /\ 0 <= px_bottom d.
Proof.
  cbv zeta. intros Hi Hr.
  apply crop_init_margins in Hi as [_ Hm].
  pose proof (validate_effect w) as (_ & Mv & _). cbv zeta in Mv.
  assert (E : (crop_right (conf (cnt w)) <? 0) = false) by (apply Z.ltb_ge; lia).
  rewrite E in Mv. rewrite Mv in Hm.
  split; [exact Hm|].
  unfold margins_of in Hm. injection Hm as -> -> -> ->.
  repeat apply conj; lia.
Qed.

Lemma crop_init_effective_margins_witness :
  let mymalloc := calloc_above 65536 in
  let w := fresh_world (fresh_context (-3) 2 (-1) 4 100 80 0 0) ∅ in
  crop_init mymalloc w = Some (after_init mymalloc w) /\
  0 <= 2 /\
  margins_of (crop_data (cnt (after_init mymalloc w))) = (0, 2, 0, 4).
Proof.
  intros mymalloc w.
  assert (Hi : crop_init mymalloc w = Some (after_init mymalloc w))
    by (apply after_init_came_back; vm_compute; reflexivity).
  split; [exact Hi|]. split; [lia|].
  refine (proj1 (crop_init_effective_margins mymalloc w _ Hi _)).
  vm_compute. discriminate.
Defined.

(** X10.  The messages that a returning [crop_init] adds to the log are, in
    this order: one "not positive" warning per negative margin (left,
    right, top, bottom, each with the configured value), then a warning
    when the clamped left and right margins exceed the width, then one when
    the clamped top and bottom margins exceed the height.  Nothing else
    is logged. *)
Theorem crop_init_log
    (mymalloc : gmap Z byte -> Z -> option (Z * gmap Z byte)) (w w' : world) :
  crop_init mymalloc w = Some w' ->
  logged w' = logged w ++ validation_warnings (conf (cnt w)) (imgs (cnt w)).
Proof.
  intros Hi. apply crop_init_log_and_capture in Hi as [Hl _].
  rewrite Hl. exact (proj1 (proj2 (proj2 (validate_effect w)))).
Qed.

Lemma crop_init_log_witness :
  let mymalloc := calloc_above 65536 in
  let w := fresh_world (fresh_context (-5) 200 0 100 100 80 0 0) ∅ in
  crop_init mymalloc w = Some (after_init mymalloc w) /\
  logged (after_init mymalloc w)
  = [NotPositive EdgeLeft (-5); WiderThanImage 0 200 100; TallerThanImage 0 100 80].
Proof.
  intros mymalloc w.
  assert (Hi : crop_init mymalloc w = Some (after_init mymalloc w))
    by (apply after_init_came_back; vm_compute; reflexivity).
  split; [exact Hi|].
  exact (crop_init_log mymalloc w _ Hi).
Defined.

(** X11.  With no negative margin, left + right within the width and
    top + bottom within the height, [crop_init] logs nothing. *)
Theorem crop_init_quiet_on_fitting_margins
    (mymalloc : gmap Z byte -> Z -> option (Z * gmap Z byte)) (w w' : world) :
  let c := conf (cnt w) in
  let i := imgs (cnt w) in
  crop_init mymalloc w = Some w' ->
  0 <= crop_left c -> 0 <= crop_right c -> 0 <= crop_top c -> 0 <= crop_bottom c ->
  crop_left c + crop_right c <= width i < 2 ^ 31 ->
  crop_top c + crop_bottom c <= height i < 2 ^ 31 ->
  logged w' = logged w.
Proof.
  cbv zeta. intros Hi Hl Hr Ht Hb Hw Hh.
  apply crop_init_log_and_capture in Hi as [Hg _]. rewrite Hg.
  rewrite (proj1 (proj2 (proj2 (validate_effect w)))).
  unfold validation_warnings, clamp_conf. cbv zeta.
  cbn [crop_left crop_right crop_top crop_bottom].
  rewrite !Z.max_r by lia.
  unfold int_add. rewrite !wrap_id by (unfold in_int; lia).
  destruct (Z.ltb_spec (crop_left (conf (cnt w))) 0); [lia|].
  destruct (Z.ltb_spec (crop_right (conf (cnt w))) 0); [lia|].
  destruct (Z.ltb_spec (crop_top (conf (cnt w))) 0); [lia|].
  destruct (Z.ltb_spec (crop_bottom (conf (cnt w))) 0); [lia|].
  rewrite !Z.gtb_ltb.
  destruct (Z.ltb_spec (width (imgs (cnt w)))
              (crop_left (conf (cnt w)) + crop_right (conf (cnt w)))); [lia|].
  destruct (Z.ltb_spec (height (imgs (cnt w)))
              (crop_top (conf (cnt w)) + crop_bottom (conf (cnt w)))); [lia|].
  cbn [warn_if app]. apply app_nil_r.
Qed.

Lemma crop_init_quiet_on_fitting_margins_witness :
  let mymalloc := calloc_above 65536 in
  let w := fresh_world (fresh_context 10 10 5 5 100 80 0 0) ∅ in
  crop_init mymalloc w = Some (after_init mymalloc w) /\
  logged (after_init mymalloc w) = [].
Proof.
  intros mymalloc w.
  assert (Hi : crop_init mymalloc w = Some (after_init mymalloc w))
    by (apply after_init_came_back; vm_compute; reflexivity).
  split; [exact Hi|].
  apply (crop_init_quiet_on_fitting_margins mymalloc w _ Hi);
    unfold w;
    cbn [conf imgs cnt fresh_world fresh_context crop_left crop_right crop_top
         crop_bottom width height]; lia.
Defined.

(** X12.  A returning [crop_init] stores the dimensions that [imgs] held
    on entry as capture dimensions, whether or not it crops, so the High
    pass of [crop_map] is enabled exactly when both High dimensions were
    non-zero on entry. *)
Theorem crop_init_records_capture_dimensions
    (mymalloc : gmap Z byte -> Z -> option (Z * gmap Z byte)) (w w' : world) :
  let i := imgs (cnt w) in
  crop_init mymalloc w = Some w' ->
  capture_of (crop_data (cnt w'))
  = (width i, height i, width_high i, height_high i) /\
  high_present (crop_data (cnt w'))
  = negb (width_high i =? 0) && negb (height_high i =? 0).
Proof.
  cbv zeta. intros Hi. apply crop_init_log_and_capture in Hi as [_ Hc].
  split; [exact Hc|].
  unfold capture_of in Hc. injection Hc as _ _ Hw Hh.
  unfold high_present. rewrite Hw, Hh. reflexivity.
Qed.

Lemma crop_init_records_capture_dimensions_witness :
  let mymalloc := calloc_above 65536 in
  let w := fresh_world (fresh_context 10 10 5 5 100 80 200 160) ∅ in
  crop_init mymalloc w = Some (after_init mymalloc w) /\
  capture_of (crop_data (cnt (after_init mymalloc w))) = (100, 80, 200, 160) /\
  high_present (crop_data (cnt (after_init mymalloc w))) = true.
Proof.
  intros mymalloc w.
  assert (Hi : crop_init mymalloc w = Some (after_init mymalloc w))
    by (apply after_init_came_back; vm_compute; reflexivity).
  split; [exact Hi|].
  exact (crop_init_records_capture_dimensions mymalloc w _ Hi).
Defined.

(** X13.  [crop_init] fails to return only with margins set and a request
    that [mymalloc] refused. *)
Theorem crop_init_fatal_only_in_mymalloc
    (mymalloc : gmap Z byte -> Z -> option (Z * gmap Z byte)) (w : world) :
  crop_init mymalloc w = None ->
  no_margins (crop_data (cnt (validate w))) = false /\
  exists m n, mymalloc m n = None.
Proof.
  unfold crop_init. cbv zeta.
  generalize (validate w) as wv. intros wv.
  set (s := frame_size _ _).
  rewrite (capture_keeps_margins s wv).
  destruct (no_margins (crop_data (cnt wv))); [discriminate|].
  generalize (shrink (swap_if_rotated s (transfer_capture wv))) as w3.
  intros w3. unfold allocate, call_mymalloc. cbn.
  destruct (mymalloc (heap w3) _) as [[p m1]|] eqn:E1.
  - cbn. destruct (_ >? 0); [|discriminate].
    destruct (mymalloc m1 _) as [[q m2]|] eqn:E2; [discriminate|].
    intros _. split; [reflexivity|]. eexists _, _. exact E2.
  - intros _. split; [reflexivity|]. eexists _, _. exact E1.
Qed.

Lemma crop_init_fatal_only_in_mymalloc_witness :
  let mymalloc := calloc_above 1000 in
  let w := fresh_world (fresh_context 10 10 5 5 100 80 0 0) ∅ in
  crop_init mymalloc w = None /\
  no_margins (crop_data (cnt (validate w))) = false /\
  exists m n, mymalloc m n = None.
Proof.
  intros mymalloc w.
  assert (Hi : crop_init mymalloc w = None) by (vm_compute; reflexivity).
  split; [exact Hi|].
  exact (crop_init_fatal_only_in_mymalloc mymalloc w Hi).
Defined.

(** Without a 90 or 270 degree rotation and with non-negative margins, not
    all zero, everything below 16384: the dimensions [crop_init] reports
    and its first request to [mymalloc], whether or not the margins fit. *)
Lemma crop_init_first_request
    (mymalloc : gmap Z byte -> Z -> option (Z * gmap Z byte)) (w w' : world) :
  let c := conf (cnt w) in
  let i := imgs (cnt w) in
  let wc := width i - crop_left c - crop_right c in
  let hc := height i - crop_top c - crop_bottom c in
  crop_init mymalloc w = Some w' ->
  degrees (rotate_data (cnt w)) <> 90 ->
  degrees (rotate_data (cnt w)) <> 270 ->
  0 <= crop_left c -> 0 <= crop_right c -> 0 <= crop_top c -> 0 <= crop_bottom c ->
  0 < crop_left c + crop_right c + crop_top c + crop_bottom c ->
  0 <= width i < 2 ^ 14 -> 0 <= height i < 2 ^ 14 ->
  crop_left c + crop_right c < 2 ^ 14 -> crop_top c + crop_bottom c < 2 ^ 14 ->
  width (imgs (cnt w')) = wc /\
  height (imgs (cnt w')) = hc /\
  nth_error (mallocs w') (length (mallocs w))
  = Some (buffer_norm (crop_data (cnt w')), to_size_t (frame_size wc hc)).
Proof.
  intros c i wc hc Hi H90 H270 Hl Hr Ht Hb Hsum Hw Hh Hlr Htb.
  pose proof (validate_frame w) as (Vi & Vr & _ & Vm & _ & _).
  pose proof (validate_copies w Hl Hr Ht Hb) as (_ & Pl & Pr & Pt & Pb).
  cbv zeta in Pl, Pr, Pt, Pb. fold c in Pl, Pr, Pt, Pb. fold i in Vi.
  revert Hi. unfold crop_init. cbv zeta.
  revert Vi Vr Vm Pl Pr Pt Pb. generalize (validate w) as wv.
  intros wv Vi Vr Vm Pl Pr Pt Pb.
  rewrite swap_if_rotated_off
    by (change (rotate_data (cnt (transfer_capture wv))) with (rotate_data (cnt wv));
        rewrite Vr; assumption).
  assert (Hn : no_margins (crop_data (cnt (transfer_capture wv))) = false).
  { unfold no_margins.
    change (px_left (crop_data (cnt (transfer_capture wv)))) with (px_left (crop_data (cnt wv))).
    change (px_right (crop_data (cnt (transfer_capture wv)))) with (px_right (crop_data (cnt wv))).
    change (px_top (crop_data (cnt (transfer_capture wv)))) with (px_top (crop_data (cnt wv))).
    change (px_bottom (crop_data (cnt (transfer_capture wv)))) with (px_bottom (crop_data (cnt wv))).
    rewrite Pl, Pr, Pt, Pb.
    destruct (Z.eqb_spec (crop_left c) 0); [|reflexivity].
    destruct (Z.eqb_spec (crop_right c) 0); [|reflexivity].
    destruct (Z.eqb_spec (crop_top c) 0); [|reflexivity].
    destruct (Z.eqb_spec (crop_bottom c) 0); [|reflexivity].
    lia. }
  rewrite Hn. intros Ha. apply allocate_buffers in Ha as (_ & Ii & p & Hp & Hm).
  cbv zeta in Ii, Hm.
  assert (Ew : width (imgs (cnt (shrink (transfer_capture wv)))) = wc).
  { change (width (imgs (cnt (shrink (transfer_capture wv)))))
      with (int_sub (int_sub (width (imgs (cnt wv))) (px_left (crop_data (cnt wv))))
              (px_right (crop_data (cnt wv)))).
    rewrite Vi, Pl, Pr. unfold int_sub.
    rewrite (wrap_id (width i - crop_left c)) by (unfold in_int; lia).
    apply wrap_id. unfold in_int. lia. }
  assert (Eh : height (imgs (cnt (shrink (transfer_capture wv)))) = hc).
  { change (height (imgs (cnt (shrink (transfer_capture wv)))))
      with (int_sub (int_sub (height (imgs (cnt wv))) (px_top (crop_data (cnt wv))))
              (px_bottom (crop_data (cnt wv)))).
    rewrite Vi, Pt, Pb. unfold int_sub.
    rewrite (wrap_id (height i - crop_top c)) by (unfold in_int; lia).
    apply wrap_id. unfold in_int. lia. }
  assert (Em : mallocs (shrink (transfer_capture wv)) = mallocs w) by exact Vm.
  rewrite Ew, Eh, Em in Hm. rewrite Ii, Ew, Eh.
  repeat apply conj; try reflexivity.
  destruct Hm as [(_ & Hm & _)|(_ & q & Hm & _)]; rewrite Hm.
  - rewrite nth_error_app2 by lia. rewrite Nat.sub_diag. cbn. congruence.
  - rewrite <- app_assoc. rewrite nth_error_app2 by lia.
    rewrite Nat.sub_diag. cbn. congruence.
Qed.

(** The [int] product of a negative and a positive dimension, times 3/2,
    converted to [size_t]. *)
Lemma frame_size_negative (a b : Z) :
  - 2 ^ 14 < a < 0 -> 0 < b < 2 ^ 14 ->
  to_size_t (frame_size a b) = 2 ^ 64 + Z.quot (a * b * 3) 2 /\
  2 ^ 63 <= to_size_t (frame_size a b).
Proof.
  intros Ha Hb.
  assert (Hab : - 2 ^ 28 < a * b < 0) by nia.
  assert (Hq : - 2 ^ 30 < Z.quot (a * b * 3) 2 < 0).
  { assert (Eq : Z.quot (a * b * 3) 2 = - (- (a * b * 3) / 2)).
    { rewrite <- Z.quot_div_nonneg by lia. rewrite Z.quot_opp_l by lia. lia. }
    rewrite Eq.
    assert (1 <= - (a * b * 3) / 2) by (apply Z.div_le_lower_bound; lia).
    assert (- (a * b * 3) / 2 < 2 ^ 30) by (apply Z.div_lt_upper_bound; lia).
    lia. }
  assert (E : frame_size a b = Z.quot (a * b * 3) 2).
  { unfold frame_size, int_div, int_mul.
    rewrite (wrap_id (a * b)) by (unfold in_int; lia).
    rewrite (wrap_id (a * b * 3)) by (unfold in_int; lia).
    apply wrap_id. unfold in_int. lia. }
  rewrite E. unfold to_size_t.
  assert (Em : Z.quot (a * b * 3) 2 mod 2 ^ 64 = 2 ^ 64 + Z.quot (a * b * 3) 2).
  { symmetry. apply (Z.mod_unique _ _ (-1)); lia. }
  rewrite Em. split; lia.
Qed.

(** X14.  Margins wider than the frame are not rejected: with left + right
    above the width and top + bottom below the height (no rotation, no
    negative margin, everything below 16384), a returning [crop_init]
    reports a negative width and has asked [mymalloc] for the negative
    [int] size converted to [size_t], at least 2^63 bytes. *)
Theorem crop_init_oversized_margins_request
    (mymalloc : gmap Z byte -> Z -> option (Z * gmap Z byte)) (w w' : world) :
  let c := conf (cnt w) in
  let i := imgs (cnt w) in
  let wc := width i - crop_left c - crop_right c in
  let hc := height i - crop_top c - crop_bottom c in
  crop_init mymalloc w = Some w' ->
  degrees (rotate_data (cnt w)) <> 90 ->
  degrees (rotate_data (cnt w)) <> 270 ->
  0 <= crop_left c -> 0 <= crop_right c -> 0 <= crop_top c -> 0 <= crop_bottom c ->
  0 <= width i < crop_left c + crop_right c ->
  crop_left c + crop_right c < 2 ^ 14 ->
  crop_top c + crop_bottom c < height i < 2 ^ 14 ->
  width (imgs (cnt w')) = wc /\
  wc < 0 /\
  nth_error (mallocs w') (length (mallocs w))
  = Some (buffer_norm (crop_data (cnt w')), 2 ^ 64 + Z.quot (wc * hc * 3) 2) /\
  2 ^ 63 <= 2 ^ 64 + Z.quot (wc * hc * 3) 2.
Proof.
  cbv zeta. intros Hi H90 H270 Hl Hr Ht Hb Hw Hlr Hh.
  destruct (crop_init_first_request mymalloc w w' Hi H90 H270 Hl Hr Ht Hb)
    as (Ew & _ & Em); try lia.
  destruct (frame_size_negative
              (width (imgs (cnt w)) - crop_left (conf (cnt w)) - crop_right (conf (cnt w)))
              (height (imgs (cnt w)) - crop_top (conf (cnt w)) - crop_bottom (conf (cnt w))))
    as [Es Hbig]; try lia.
  rewrite Es in Em, Hbig.
  repeat apply conj; [exact Ew|lia|exact Em|exact Hbig].
Qed.

(** An allocator for this example: it grants any request and hands out
    address 16 without touching the heap. *)
Lemma crop_init_oversized_margins_request_witness :
  let mymalloc := fun (m : gmap Z byte) (_ : Z) => Some (16, m) in
  let w := fresh_world (fresh_context 60 60 5 5 100 80 0 0) ∅ in
  crop_init mymalloc w = Some (after_init mymalloc w) /\
  width (imgs (cnt (after_init mymalloc w))) = -20 /\
  nth_error (mallocs (after_init mymalloc w)) 0
  = Some (16, 2 ^ 64 - 2100).
Proof.
  intros mymalloc w.
  assert (Hi : crop_init mymalloc w = Some (after_init mymalloc w))
    by (apply after_init_came_back; vm_compute; reflexivity).
  split; [exact Hi|].
  destruct (crop_init_oversized_margins_request mymalloc w _ Hi)
    as (Ew & _ & Em & _);
    try (unfold w;
         cbn [conf imgs cnt rotate_data fresh_world fresh_context no_rotation degrees
              crop_left crop_right crop_top crop_bottom width height]; lia).
  split; [exact Ew|].
  change (length (mallocs w)) with 0%nat in Em.
  rewrite Em. vm_compute. reflexivity.
Defined.

Lemma crop_init_reports_cropped_size_witness :
  let mymalloc := calloc_above 65536 in
  let w := fresh_world (fresh_context 10 10 5 5 100 80 0 0) ∅ in
  let w' := after_init mymalloc w in
  crop_init mymalloc w = Some w' /\
  width (imgs (cnt w')) = 80 /\
  height (imgs (cnt w')) = 70 /\
  nth_error (mallocs w') 0 = Some (buffer_norm (crop_data (cnt w')), 8400).
Proof.
  intros mymalloc w w'.
  assert (Hi : crop_init mymalloc w = Some w')
    by (apply after_init_came_back; vm_compute; reflexivity).
  split; [exact Hi|].
  apply (crop_init_reports_cropped_size mymalloc w w' Hi);
    unfold w;
    cbn [conf imgs cnt rotate_data fresh_world fresh_context no_rotation degrees
         crop_left crop_right crop_top crop_bottom width height]; lia.
Defined.

(** * Properties of [crop_deinit] *)

(** When [crop_init] returns with cropping disabled, the pointer to the
    Normal staging buffer is NULL as well. *)
Lemma crop_init_disabled_buffer_norm
    (mymalloc : gmap Z byte -> Z -> option (Z * gmap Z byte)) (w w' : world) :
  crop_init mymalloc w = Some w' ->
  no_margins (crop_data (cnt w')) = true ->
  buffer_norm (crop_data (cnt w')) = NULL.
Proof.
  unfold crop_init. cbv zeta.
  pose proof (validate_frame w) as (_ & _ & _ & _ & Vn & _).
  revert Vn. generalize (validate w) as wv. intros wv Vn.
  set (s := frame_size _ _).
  pose proof (capture_keeps_buffers s wv) as [Kn _]. cbv zeta in Kn.
  pose proof (shrink_frame (swap_if_rotated s (transfer_capture wv))) as (Sd & _).
  revert Kn Sd. generalize (swap_if_rotated s (transfer_capture wv)) as w2.
  intros w2 Kn Sd.
  destruct (no_margins (crop_data (cnt w2))) eqn:E.
  - intros [= <-] _. congruence.
  - intros Ha Hn. apply allocate_margins in Ha as [_ Hm].
    rewrite Sd in Hm. unfold no_margins in Hn, E. unfold margins_of in Hm.
    injection Hm as El Er Et Eb. rewrite El, Er, Et, Eb in Hn. congruence.
Qed.

(** X16.  After [crop_init], [crop_deinit] hands to [free] at most the
    address in [crop_data.buffer_norm], and only when it is not NULL; the
    second block that [crop_init] may have obtained (kept in
    [rotate_data.buffer_high]) is never handed to [free].  The context is
    left as it was. *)
Theorem crop_deinit_frees_only_buffer_norm
    (mymalloc : gmap Z byte -> Z -> option (Z * gmap Z byte))
    (free : gmap Z byte -> Z -> gmap Z byte) (w w' : world) :
  crop_init mymalloc w = Some w' ->
  let p := buffer_norm (crop_data (cnt w')) in
  fst (crop_deinit free w') = (if p =? NULL then [] else [p]) /\
  cnt (snd (crop_deinit free w')) = cnt w' /\
  (rot_buffer_high (rotate_data (cnt w')) <> p ->
   ~ In (rot_buffer_high (rotate_data (cnt w'))) (fst (crop_deinit free w'))).
Proof.
  intros Hi p. apply crop_init_clears_buffer_high in Hi.
  unfold crop_deinit. cbv zeta. rewrite Hi. fold p.
  change (NULL =? NULL) with true. cbv iota.
  destruct (p =? NULL); cbn [fst snd with_heap cnt]; repeat apply conj;
    try reflexivity.
  - intros _ [].
  - intros Hne [Hq|[]]. congruence.
Qed.

Lemma crop_deinit_frees_only_buffer_norm_witness :
  let mymalloc := calloc_above 65536 in
  let w := fresh_world (fresh_context 1 1 1 1 4 4 8 8) ∅ in
  let w' := after_init mymalloc w in
  let free := free_listed (mallocs w') in
  crop_init mymalloc w = Some w' /\
  rot_buffer_high (rotate_data (cnt w')) <> NULL /\
  fst (crop_deinit free w') = [buffer_norm (crop_data (cnt w'))] /\
  ~ In (rot_buffer_high (rotate_data (cnt w'))) (fst (crop_deinit free w')).
Proof.
  intros mymalloc w w' free.
  assert (Hi : crop_init mymalloc w = Some w')
    by (apply after_init_came_back; vm_compute; reflexivity).
  split; [exact Hi|]. split; [vm_compute; discriminate|].
  destruct (crop_deinit_frees_only_buffer_norm mymalloc free w w' Hi) as (Hf & _ & Hl).
  split.
  - rewrite Hf. vm_compute. reflexivity.
  - apply Hl. vm_compute. discriminate.
Defined.

(** X17.  When [crop_init] returned with cropping disabled, [crop_deinit]
    calls [free] not at all and leaves the whole state, heap included, as
    it was. *)
Theorem crop_deinit_noop_when_disabled
    (mymalloc : gmap Z byte -> Z -> option (Z * gmap Z byte))
    (free : gmap Z byte -> Z -> gmap Z byte) (w w' : world) :
  crop_init mymalloc w = Some w' ->
  no_margins (crop_data (cnt w')) = true ->
  crop_deinit free w' = ([], w').
Proof.
  intros Hi Hn.
  pose proof (crop_init_disabled_buffer_norm mymalloc w w' Hi Hn) as Hp.
  apply crop_init_clears_buffer_high in Hi.
  unfold crop_deinit. cbv zeta. rewrite Hi, Hp.
  change (NULL =? NULL) with true. cbv iota.
  destruct w'. reflexivity.
Qed.

Lemma crop_deinit_noop_when_disabled_witness :
  let mymalloc := calloc_above 65536 in
  let w := fresh_world (fresh_context 0 0 0 0 4 4 0 0) heap4x4 in
  let w' := after_init mymalloc w in
  crop_init mymalloc w = Some w' /\
  no_margins (crop_data (cnt w')) = true /\
  crop_deinit (free_listed []) w' = ([], w').
Proof.
  intros mymalloc w w'.
  assert (Hi : crop_init mymalloc w = Some w')
    by (apply after_init_came_back; vm_compute; reflexivity).
  assert (Hn : no_margins (crop_data (cnt w')) = true) by (vm_compute; reflexivity).
  split; [exact Hi|]. split; [exact Hn|].
  exact (crop_deinit_noop_when_disabled mymalloc (free_listed []) w w' Hi Hn).
Defined.

(** X18.  [crop_deinit] does not reset the pointers it frees: a second
    call hands the same addresses to [free] again. *)
Theorem crop_deinit_twice_frees_again (free : gmap Z byte -> Z -> gmap Z byte)
    (w : world) :
  cnt (snd (crop_deinit free w)) = cnt w /\
  fst (crop_deinit free (snd (crop_deinit free w))) = fst (crop_deinit free w).
Proof.
  unfold crop_deinit. cbv zeta.
  destruct (buffer_norm (crop_data (cnt w)) =? NULL) eqn:En;
    destruct (buffer_high (crop_data (cnt w)) =? NULL) eqn:Eh;
    cbn [fst snd with_heap cnt heap]; rewrite ?En, ?Eh; split; reflexivity.
Qed.
